(** * Metadata Wizard: the template resolver and the mapping engine of server.py

    A shallow embedding of [TemplateResolver] and [MappingStrategy]
    (src/server.py) and the properties the specification states about them.

    Conventions of the embedding.

    - A Python [str] is a Rocq [string]; one [ascii] stands for one code point
      in U+0000..U+00FF.  The methods [strip], [isdigit], [int] and [upper]
      follow CPython on that range.  Every literal of the program is ASCII.
    - A value obtained from JSON is a [json]: [None], [bool], [int], [float],
      [str], [list] and [dict].  A [dict] keeps its insertion order, so it is an
      association list; [dict.get] reads the first binding of a key.
    - The program observes a [float] only through [str()], through its truth
      value and through [==] against a [str]; a float is carried as its [repr]
      text, of which the three are functions.
    - A Python call either returns or raises: [result] is the error monad,
      [Raises] carrying the class of the exception. *)

From Stdlib Require Import Bool Arith NArith ZArith Lia List Ascii String.
From Stdlib Require Import DecimalString DecimalN.
Import ListNotations.

Open Scope list_scope.
Open Scope string_scope.

(* ------------------------------------------------------------------ *)
(** ** Exceptions and the error monad *)

Inductive exn : Set :=
| AttributeError
| TypeError
| ValueError
| KeyError.

Inductive result (A : Type) : Type :=
| Returns (a : A)
| Raises (e : exn).

Arguments Returns {A} a.
Arguments Raises {A} e.

Definition bind {A B : Type} (m : result A) (k : A -> result B) : result B :=
  match m with
  | Returns a => k a
  | Raises e => Raises e
  end.

Notation "x <- m ;; k" := (bind m (fun x => k))
  (at level 61, m at next level, right associativity).

Definition returned {A : Type} (dflt : A) (m : result A) : A :=
  match m with
  | Returns a => a
  | Raises _ => dflt
  end.

Definition is_returns {A : Type} (m : result A) : bool :=
  match m with
  | Returns _ => true
  | Raises _ => false
  end.

(* ------------------------------------------------------------------ *)
(** ** Python [str] methods used by the program *)

Module PyStr.

Definition code (c : ascii) : nat := nat_of_ascii c.

Definition between (lo hi n : nat) : bool := Nat.leb lo n && Nat.leb n hi.

Definition is_empty (s : string) : bool :=
  match s with
  | EmptyString => true
  | String _ _ => false
  end.

(** [s.startswith(p)] *)
Fixpoint startswith (p s : string) : bool :=
  match p with
  | EmptyString => true
  | String a p' =>
      match s with
      | EmptyString => false
      | String b s' => Ascii.eqb a b && startswith p' s'
      end
  end.

(** [s.endswith(p)] *)
Fixpoint endswith (p s : string) : bool :=
  String.eqb p s ||
  match s with
  | EmptyString => false
  | String _ s' => endswith p s'
  end.

(** [sub in s] *)
Fixpoint contains (sub s : string) : bool :=
  startswith sub s ||
  match s with
  | EmptyString => false
  | String _ s' => contains sub s'
  end.

(** [s[:-1]] *)
Fixpoint drop_last (s : string) : string :=
  match s with
  | EmptyString => EmptyString
  | String c s' => if is_empty s' then EmptyString else String c (drop_last s')
  end.

(** [s[1:-1]] *)
Definition slice_1_m1 (s : string) : string :=
  match s with
  | EmptyString => EmptyString
  | String _ s' => drop_last s'
  end.

(** Characters [str.strip()] removes: TAB..CR, FS..US, SPACE, NEL, NBSP. *)
Definition is_space (c : ascii) : bool :=
  let n := code c in
  between 9 13 n || between 28 32 n || Nat.eqb n 133 || Nat.eqb n 160.

Fixpoint lstrip (s : string) : string :=
  match s with
  | EmptyString => EmptyString
  | String c s' => if is_space c then lstrip s' else s
  end.

Fixpoint rstrip (s : string) : string :=
  match s with
  | EmptyString => EmptyString
  | String c s' =>
      let r := rstrip s' in
      if is_empty r && is_space c then EmptyString else String c r
  end.

Definition strip (s : string) : string := rstrip (lstrip s).

(** [s.split(sep)] for a non-empty [sep]: [split_go] returns the piece that
    starts at the current position and the pieces after it; [skip] counts the
    characters of a separator still to be passed over. *)
Fixpoint split_go (sep : string) (skip : nat) (s : string)
  : string * list string :=
  match s with
  | EmptyString => (EmptyString, [])
  | String c s' =>
      match skip with
      | S k => split_go sep k s'
      | O =>
          if startswith sep s
          then (EmptyString,
                let (p, ps) := split_go sep (String.length sep - 1) s' in
                p :: ps)
          else let (p, ps) := split_go sep 0 s' in (String c p, ps)
      end
  end.

Definition split (sep s : string) : list string :=
  let (p, ps) := split_go sep 0 s in p :: ps.

(** [sep.join(l)] *)
Fixpoint join (sep : string) (l : list string) : string :=
  match l with
  | [] => EmptyString
  | [x] => x
  | x :: rest => x ++ sep ++ join sep rest
  end.

Definition is_ascii_digit (c : ascii) : bool :=
  between 48 57 (code c).

(** SUPERSCRIPT TWO, THREE and ONE: digits for [isdigit], not for [int]. *)
Definition is_superscript_digit (c : ascii) : bool :=
  Nat.eqb (code c) 178 || Nat.eqb (code c) 179 || Nat.eqb (code c) 185.

Fixpoint all_chars (p : ascii -> bool) (s : string) : bool :=
  match s with
  | EmptyString => true
  | String c s' => p c && all_chars p s'
  end.

(** [s.isdigit()] *)
Definition isdigit (s : string) : bool :=
  negb (is_empty s)
  && all_chars (fun c => is_ascii_digit c || is_superscript_digit c) s.

(** CPython's default limit on the digits [int(str)] converts
    (sys.int_info.default_max_str_digits). *)
Definition int_max_str_digits : nat := 4300.

Fixpoint digits_value (acc : N) (s : string) : N :=
  match s with
  | EmptyString => acc
  | String c s' => digits_value (acc * 10 + N.of_nat (code c - 48)) s'
  end.

(** [int(s)] on a string that passed [isdigit]. *)
Definition py_int (s : string) : result N :=
  if negb (is_empty s) && all_chars is_ascii_digit s
     && Nat.leb (String.length s) int_max_str_digits
  then Returns (digits_value 0 s)
  else Raises ValueError.

(** [s.upper()]: a..z and the Latin-1 letters.  The capitals of MICRO SIGN
    (U+00B5) and of y with diaeresis (U+00FF) lie beyond U+00FF and cannot
    be written here: on a string that holds one of the two this function is
    not [str.upper()], and what is stated of it is stated for the other
    strings ([upper_exact] below). *)
Definition upper_char (c : ascii) : string :=
  let n := code c in
  if between 97 122 n || (between 224 254 n && negb (Nat.eqb n 247))
  then String (ascii_of_nat (n - 32)) EmptyString
  else if Nat.eqb n 223 then "SS"
  else String c EmptyString.

Fixpoint upper (s : string) : string :=
  match s with
  | EmptyString => EmptyString
  | String c s' => upper_char c ++ upper s'
  end.

(** The longest prefix free of [stop], and what follows it. *)
Fixpoint span_not (stop : ascii) (s : string) : string * string :=
  match s with
  | EmptyString => (EmptyString, EmptyString)
  | String c s' =>
      if Ascii.eqb c stop then (EmptyString, s)
      else let (p, r) := span_not stop s' in (String c p, r)
  end.

End PyStr.

Import PyStr.

(* ------------------------------------------------------------------ *)
(** ** JSON values as Python objects *)

#[local] Set Warnings "-register-all".

Inductive json : Type :=
| JNull
| JBool (b : bool)
| JInt (z : Z)
| JFloat (repr : string)
| JStr (s : string)
| JList (l : list json)
| JDict (d : list (string * json)).

Definition dict : Type := list (string * json).

Module PyObj.

(** [d.get(key)] on the association list: the value, when the key is bound. *)
Fixpoint lookup (key : string) (d : dict) : option json :=
  match d with
  | [] => None
  | (k, v) :: rest => if String.eqb k key then Some v else lookup key rest
  end.

(** [d.get(key, dflt)] *)
Definition dict_get (key : string) (d : dict) (dflt : json) : json :=
  match lookup key d with
  | Some v => v
  | None => dflt
  end.

(** [key in d] *)
Definition dict_has (key : string) (d : dict) : bool :=
  match lookup key d with
  | Some _ => true
  | None => false
  end.

(** [d[key] = v]: a bound key keeps its place, a new one goes last. *)
Fixpoint dict_set (key : string) (v : json) (d : dict) : dict :=
  match d with
  | [] => [(key, v)]
  | (k, w) :: rest =>
      if String.eqb k key then (k, v) :: rest
      else (k, w) :: dict_set key v rest
  end.

Definition keys (d : dict) : list string := map fst d.

(** [isinstance(v, list)], [isinstance(v, dict)], [v is None] *)
Definition is_list (v : json) : bool :=
  match v with JList _ => true | _ => false end.

Definition is_dict (v : json) : bool :=
  match v with JDict _ => true | _ => false end.

Definition is_none (v : json) : bool :=
  match v with JNull => true | _ => false end.

(** [v == s] for a [str] [s]: only an equal [str] compares equal. *)
Definition eq_str (v : json) (s : string) : bool :=
  match v with
  | JStr t => String.eqb t s
  | _ => false
  end.

(** Truth value of an object. *)
Definition truthy (v : json) : bool :=
  match v with
  | JNull => false
  | JBool b => b
  | JInt z => negb (Z.eqb z 0)
  | JFloat r => negb (String.eqb r "0.0" || String.eqb r "-0.0")
  | JStr s => negb (is_empty s)
  | JList l => match l with [] => false | _ :: _ => true end
  | JDict d => match d with [] => false | _ :: _ => true end
  end.

(** [o.get(key, dflt)]: only a [dict] has the method. *)
Definition py_get (o : json) (key : string) (dflt : json) : result json :=
  match o with
  | JDict d => Returns (dict_get key d dflt)
  | _ => Raises AttributeError
  end.

(** [key in o] for a [str] key: membership in a [dict], substring of a
    [str], element of a [list]; the other kinds are not containers. *)
Definition py_contains (key : string) (o : json) : result bool :=
  match o with
  | JDict d => Returns (dict_has key d)
  | JStr s => Returns (contains key s)
  | JList l => Returns (existsb (fun x => eq_str x key) l)
  | _ => Raises TypeError
  end.

(** [o[key]] for a [str] key. *)
Definition py_getitem (o : json) (key : string) : result json :=
  match o with
  | JDict d =>
      match lookup key d with
      | Some v => Returns v
      | None => Raises KeyError
      end
  | _ => Raises TypeError
  end.

(** *** [repr] and [str] *)

Definition hex_digit (n : nat) : ascii :=
  if Nat.ltb n 10 then ascii_of_nat (48 + n) else ascii_of_nat (87 + n).

Definition is_printable (c : ascii) : bool :=
  between 32 126 (code c) || (between 161 255 (code c) && negb (Nat.eqb (code c) 173)).

Definition repr_char (quote c : ascii) : string :=
  if Ascii.eqb c "\" then "\\"
  else if Ascii.eqb c quote then String "\" (String c EmptyString)
  else if Nat.eqb (code c) 9 then "\t"
  else if Nat.eqb (code c) 10 then "\n"
  else if Nat.eqb (code c) 13 then "\r"
  else if is_printable c then String c EmptyString
  else String "\" (String "x" (String (hex_digit (code c / 16))
                                (String (hex_digit (code c mod 16)) EmptyString))).

Fixpoint repr_chars (quote : ascii) (s : string) : string :=
  match s with
  | EmptyString => EmptyString
  | String c s' => repr_char quote c ++ repr_chars quote s'
  end.

(** [repr(s)]: single quotes, unless [s] has a single quote and no double one. *)
Definition dquote : ascii := ascii_of_nat 34.

Definition repr_str (s : string) : string :=
  let quote : ascii :=
    if contains "'" s && negb (contains (String dquote EmptyString) s)
    then dquote else "'"%char in
  String quote (repr_chars quote s ++ String quote EmptyString).

Definition str_of_int (z : Z) : string := NilZero.string_of_int (Z.to_int z).

Fixpoint py_repr (v : json) : string :=
  match v with
  | JNull => "None"
  | JBool true => "True"
  | JBool false => "False"
  | JInt z => str_of_int z
  | JFloat r => r
  | JStr s => repr_str s
  | JList l => "[" ++ join ", " (map py_repr l) ++ "]"
  | JDict d =>
      "{" ++ join ", " (map (fun kv : string * json =>
                              let (k, w) := kv in
                              repr_str k ++ ": " ++ py_repr w) d) ++ "}"
  end.

(** [str(v)] *)
Definition py_str (v : json) : string :=
  match v with
  | JStr s => s
  | _ => py_repr v
  end.

End PyObj.

Import PyObj.

(* ------------------------------------------------------------------ *)
(** ** TemplateResolver *)

Module TemplateResolver.

(** The loop of [_resolve_path] over the segments of a plain path
    (server.py, lines 97-120). *)
Fixpoint walk (parts : list string) (current : json) : result json :=
  match parts with
  | [] => Returns current
  | part :: rest =>
      if is_none current then Returns JNull
      else if startswith "[" part && endswith "]" part then
        let idx_str := slice_1_m1 part in
        if negb (isdigit idx_str) then Returns JNull
        else
          idx <- py_int idx_str ;;
          match current with
          | JList l =>
              if N.ltb idx (N.of_nat (List.length l))
              then walk rest (nth (N.to_nat idx) l JNull)
              else Returns JNull
          | _ => Returns JNull
          end
      else
        match current with
        | JDict d => walk rest (dict_get part d JNull)
        | _ => Returns JNull
        end
  end.

(** [_resolve_path] on a path without the filter marker: lines 88-89 and
    96-120. *)
Definition _resolve_plain (path : string) (data : json) : result json :=
  if is_empty path then Returns JNull
  else walk (split "." path) data.

(** [re.match(r'([^.]+)\.\[\?([^=]+)=([^\]]+)\]\.(.+)', path)]: each class
    excludes the literal that follows it, so each group is the longest run up
    to that literal; the last group stops at a line feed and the match need
    not reach the end of [path]. *)
Definition match_filter (path : string)
  : option (string * string * string * string) :=
  let (base, r1) := span_not "." path in
  match r1 with
  | String "." (String "[" (String "?" r2)) =>
      let (field, r3) := span_not "=" r2 in
      match r3 with
      | String "=" r4 =>
          let (value, r5) := span_not "]" r4 in
          match r5 with
          | String "]" (String "." r6) =>
              let (res, _) := span_not "010" r6 in
              if is_empty base || is_empty field || is_empty value
                 || is_empty res
              then None
              else Some (base, field, value, res)
          | _ => None
          end
      | _ => None
      end
  | _ => None
  end.

(** The test of one element of the array (lines 142-149): [None] when the
    scan goes on, the value to return otherwise. *)
Definition filter_item (filter_field filter_value result_field : string)
  (item : json) : option json :=
  match item with
  | JDict d =>
      let field_val := dict_get filter_field d JNull in
      if eq_str field_val filter_value
      then Some (dict_get result_field d JNull)
      else
        match field_val with
        | JList l =>
            if existsb (fun x => eq_str x filter_value) l
            then Some (dict_get result_field d JNull)
            else None
        | _ => None
        end
  | _ => None
  end.

Fixpoint scan (filter_field filter_value result_field : string)
  (arr : list json) : json :=
  match arr with
  | [] => JNull
  | item :: rest =>
      match filter_item filter_field filter_value result_field item with
      | Some v => v
      | None => scan filter_field filter_value result_field rest
      end
  end.

(** [_resolve_filtered_array].  Its call of [_resolve_path] on [base] is the
    plain branch: [base] is not empty and has no dot, hence no filter marker
    ([resolve_path_base] below). *)
Definition _resolve_filtered_array (path : string) (data : json)
  : result json :=
  match match_filter path with
  | None => Returns JNull
  | Some (base, filter_field, filter_value, result_field) =>
      arr <- _resolve_plain base data ;;
      match arr with
      | JList l => Returns (scan filter_field filter_value result_field l)
      | _ => Returns JNull
      end
  end.

Definition _resolve_path (path : string) (data : json) : result json :=
  if is_empty path then Returns JNull
  else if contains ".[?" path then _resolve_filtered_array path data
  else walk (split "." path) data.

(** [val is not None and val != ''] *)
Definition usable (val : json) : bool :=
  negb (is_none val) && negb (eq_str val "").

(** The loop of [replacer] over the alternatives (lines 75-79). *)
Fixpoint first_usable (parts : list string) (data : json) : result string :=
  match parts with
  | [] => Returns ""
  | part :: rest =>
      val <- _resolve_path part data ;;
      if usable val then Returns (py_str val) else first_usable rest data
  end.

(** The alternatives of a placeholder body (lines 72-74). *)
Definition alternatives (body : string) : list string :=
  map strip (split "||" (strip body)).

Definition replacer (data : json) (body : string) : result string :=
  first_usable (alternatives body) data.

(** One attempt of [r'\{\{([^}]+)\}\}'] at the head of [s]: the group. *)
Definition match_placeholder (s : string) : option string :=
  match s with
  | String "{" (String "{" s1) =>
      let (body, rest) := span_not "}" s1 in
      match rest with
      | String "}" (String "}" _) =>
          if is_empty body then None else Some body
      | _ => None
      end
  | _ => None
  end.

(** [re.sub(pattern, repl, s)]: leftmost matches, left to right, none
    overlapping; [skip] counts the characters of a match still to pass. *)
Fixpoint re_sub (repl : string -> result string) (skip : nat) (s : string)
  : result string :=
  match s with
  | EmptyString => Returns ""
  | String c s' =>
      match skip with
      | S k => re_sub repl k s'
      | O =>
          match match_placeholder s with
          | Some body =>
              r <- repl body ;;
              rest <- re_sub repl (String.length body + 3) s' ;;
              Returns (r ++ rest)
          | None =>
              rest <- re_sub repl 0 s' ;;
              Returns (String c rest)
          end
      end
  end.

Definition resolve (template : json) (data : json) : result string :=
  match template with
  | JStr s =>
      if is_empty s then Returns ""
      else if negb (contains "{{" s) then Returns s
      else re_sub (replacer data) 0 s
  | _ => Returns (if truthy template then py_str template else "")
  end.

End TemplateResolver.

Import TemplateResolver.

(** Fixtures of tests/test_server.py. *)

Definition ror_names : json :=
  JList [JDict [("types", JList [JStr "label"]); ("value", JStr "Label Name")];
         JDict [("types", JList [JStr "ror_display"]);
                ("value", JStr "Display Name")]].

Definition ror_config : dict :=
  [("strategy", JStr "array_find");
   ("label", JStr "{{names.[?types=ror_display].value || names.[?types=label].value}}");
   ("sublabel", JStr "{{country.country_name}}");
   ("id", JStr "{{id}}"); ("scheme", JStr "ROR")].

(* ------------------------------------------------------------------ *)
(** ** MappingStrategy *)

(** A mapper takes a hit and the mapper configuration. *)
Definition mapper : Type := json -> json -> result json.

Module MappingStrategy.

(** One turn of the loop of [_resolve_xrefs] (lines 237-250). *)
Definition xref_step (hit : json) (db : string) (xref_tpl : json)
  (xrefs : dict) : result dict :=
  has_condition <- py_contains "condition" xref_tpl ;;
  skip <- (if has_condition : bool
           then condition <- py_getitem xref_tpl "condition" ;;
                cond_val <- resolve condition hit ;;
                Returns (is_empty cond_val)
           else Returns false) ;;
  if skip : bool then Returns xrefs
  else
    id_tpl <- py_get xref_tpl "id" (JStr "") ;;
    xref_id <- resolve id_tpl hit ;;
    if is_empty xref_id then Returns xrefs
    else
      uri_tpl <- py_get xref_tpl "uri" (JStr "") ;;
      uri <- resolve uri_tpl hit ;;
      label <- py_get xref_tpl "label" (JStr (upper db)) ;;
      Returns (dict_set db (JDict [("id", JStr xref_id);
                                   ("uri", JStr uri);
                                   ("label", label)]) xrefs).

Fixpoint xrefs_loop (hit : json) (items : dict) (xrefs : dict)
  : result dict :=
  match items with
  | [] => Returns xrefs
  | (db, xref_tpl) :: rest =>
      xrefs' <- xref_step hit db xref_tpl xrefs ;;
      xrefs_loop hit rest xrefs'
  end.

Definition _resolve_xrefs (hit xrefs_config : json) : result json :=
  match xrefs_config with
  | JDict items =>
      xrefs <- xrefs_loop hit items [] ;;
      Returns (JDict xrefs)
  | _ => Raises AttributeError
  end.

Definition _generic_map (hit config : json) : result json :=
  label_tpl <- py_get config "label" (JStr "") ;;
  label <- resolve label_tpl hit ;;
  sublabel_tpl <- py_get config "sublabel" (JStr "") ;;
  sublabel <- resolve sublabel_tpl hit ;;
  id_tpl <- py_get config "id" (JStr "") ;;
  id <- resolve id_tpl hit ;;
  scheme <- py_get config "scheme" (JStr "") ;;
  let result := [("label", JStr label); ("sublabel", JStr sublabel);
                 ("id", JStr id); ("scheme", scheme)] in
  has_xrefs <- py_contains "xrefs" config ;;
  if has_xrefs : bool
  then
    xrefs_config <- py_getitem config "xrefs" ;;
    xrefs <- _resolve_xrefs hit xrefs_config ;;
    Returns (JDict (dict_set "xrefs" xrefs result))
  else Returns (JDict result).

Definition flat_object (hit config : json) : result json :=
  _generic_map hit config.

Definition nested_object (hit config : json) : result json :=
  _generic_map hit config.

Definition array_find (hit config : json) : result json :=
  _generic_map hit config.

Definition obo_ontology (hit config : json) : result json :=
  label <- py_get hit "label" (JStr "?") ;;
  sublabel <- py_get hit "obo_id" (JStr "") ;;
  id <- py_get hit "iri" (JStr "") ;;
  scheme <- py_get config "scheme" (JStr "OBO") ;;
  description <- py_get hit "description" (JStr "") ;;
  Returns (JDict [("label", label); ("sublabel", sublabel); ("id", id);
                  ("scheme", scheme); ("description", description)]).

(** The registry [CUSTOM_MAPPERS] maps a name to a mapper. *)
Definition registry : Type := list (string * mapper).

Fixpoint registered (name : string) (reg : registry) : option mapper :=
  match reg with
  | [] => None
  | (n, f) :: rest => if String.eqb n name then Some f else registered name rest
  end.

(** [func_name in CUSTOM_MAPPERS]: a [list] or a [dict] cannot be hashed;
    a number or a boolean is hashed and is no key of the registry. *)
Definition custom (reg : registry) (hit config : json) : result json :=
  func_name <- py_get config "function_name" JNull ;;
  if truthy func_name
  then
    match func_name with
    | JStr name =>
        match registered name reg with
        | Some f => f hit config
        | None => _generic_map hit config
        end
    | JList _ | JDict _ => Raises TypeError
    | _ => _generic_map hit config
    end
  else _generic_map hit config.

End MappingStrategy.

Import MappingStrategy.

(** [normalize_mgi_mapper], registered under "normalize_mgi" (lines 268-282). *)
Definition normalize_mgi_mapper (hit config : json) : result json :=
  mgi_raw <- py_get hit "MGI" (JStr "") ;;
  let mgi_raw :=
    match mgi_raw with
    | JList [] => JStr ""
    | JList (x :: _) => x
    | _ => mgi_raw
    end in
  let mgi_raw := py_str mgi_raw in
  let mgi_id :=
    if startswith "MGI:" mgi_raw then mgi_raw
    else if is_empty mgi_raw then "" else "MGI:" ++ mgi_raw in
  label <- py_get hit "symbol" (JStr "?") ;;
  sublabel <- py_get hit "name" (JStr "") ;;
  Returns (JDict [("label", label); ("sublabel", sublabel);
                  ("id", JStr (if is_empty mgi_id then ""
                               else "https://identifiers.org/mgi:" ++ mgi_id));
                  ("scheme", JStr "MGI")]).

Definition CUSTOM_MAPPERS : registry :=
  [("normalize_mgi", normalize_mgi_mapper)].

(** [getattr(MappingStrategy, strategy, MappingStrategy.flat_object)]
    (line 407): the attributes the class body defines.  The names Python
    gives every class by itself ([__doc__], [__class__], [mro], ...) are
    not part of the table: what is stated of a name left open is stated for
    the names [python_class_name] does not recognise. *)
Definition class_attribute (reg : registry) (strategy : string)
  : option mapper :=
  if String.eqb strategy "flat_object" then Some flat_object
  else if String.eqb strategy "nested_object" then Some nested_object
  else if String.eqb strategy "array_find" then Some array_find
  else if String.eqb strategy "obo_ontology" then Some obo_ontology
  else if String.eqb strategy "custom" then Some (custom reg)
  else if String.eqb strategy "_generic_map" then Some _generic_map
  else if String.eqb strategy "_resolve_xrefs" then Some _resolve_xrefs
  else None.

Definition python_class_name (strategy : string) : bool :=
  (startswith "__" strategy && endswith "__" strategy)
  || String.eqb strategy "mro".

(** The dispatch of [search_api] on one hit (lines 407 and 409). *)
Definition mapHit (reg : registry) (strategy : string) (hit config : json)
  : result json :=
  let mapper_func :=
    match class_attribute reg strategy with
    | Some f => f
    | None => flat_object
    end in
  mapper_func hit config.

(** Lines 406-409 on one hit, the strategy being the one the configuration
    names; [getattr] wants a [str] for the name. *)
Definition map_configured (reg : registry) (hit mapper_config : json)
  : result json :=
  strategy <- py_get mapper_config "strategy" (JStr "flat_object") ;;
  match strategy with
  | JStr name => mapHit reg name hit mapper_config
  | _ => Raises TypeError
  end.


Definition mygene_hit : json :=
  JDict [("_id", JStr "11287"); ("MGI", JStr "88057"); ("RGD", JNull)].

Definition mygene_xrefs : json :=
  JDict [("ncbi_gene",
          JDict [("id", JStr "{{_id}}");
                 ("uri", JStr "https://identifiers.org/ncbigene:{{_id}}");
                 ("label", JStr "NCBI Gene")]);
         ("mgi",
          JDict [("condition", JStr "{{MGI}}"); ("id", JStr "{{MGI}}");
                 ("uri", JStr "https://identifiers.org/mgi:{{MGI}}");
                 ("label", JStr "MGI")]);
         ("rgd",
          JDict [("condition", JStr "{{RGD}}"); ("id", JStr "{{RGD}}");
                 ("uri", JStr "https://identifiers.org/rgd:{{RGD}}");
                 ("label", JStr "RGD")])].

(* ------------------------------------------------------------------ *)
(** ** The registry of custom mappers *)

(** [CUSTOM_MAPPERS[name] = func]: a registered name keeps its place. *)
Fixpoint registry_set (name : string) (func : mapper) (reg : registry)
  : registry :=
  match reg with
  | [] => [(name, func)]
  | (n, f) :: rest =>
      if String.eqb n name then (n, func) :: rest
      else (n, f) :: registry_set name func rest
  end.

(** [register_custom_mapper(name)(func)] (lines 260-265): the registry
    after the call, and the function the decorator hands back. *)
Definition register_custom_mapper (name : string) (func : mapper)
  (reg : registry) : registry * mapper :=
  (registry_set name func reg, func).

(* ------------------------------------------------------------------ *)
(** ** search_api, from the upstream response on *)

Module SearchApi.

(** The loop of lines 389-391 over the keys of [result_path]. *)
Fixpoint descend (path_keys : list string) (hits : json) : json :=
  match path_keys with
  | [] => hits
  | key :: rest =>
      if is_empty key then descend rest hits
      else descend rest (match hits with
                         | JDict d => dict_get key d (JList [])
                         | _ => JList []
                         end)
  end.

(** The stop of [hits[:limit]] for an [int] limit: a negative one counts
    from the end, and the slice never leaves the list. *)
Definition slice_stop (limit : Z) (len : nat) : nat :=
  if Z.ltb limit 0 then Z.to_nat (Z.of_nat len + limit)
  else Z.to_nat (Z.min limit (Z.of_nat len)).

(** [hits[:limit]]: an [int], a [bool] or [None] is a slice index. *)
Definition slice_to (limit : json) (hits : list json) : result (list json) :=
  match limit with
  | JNull => Returns hits
  | JInt z => Returns (firstn (slice_stop z (List.length hits)) hits)
  | JBool b => Returns (firstn (if b then 1 else 0) hits)
  | _ => Raises TypeError
  end.

(** Lines 387-398: the hits of the response [data]. *)
Definition extract_hits (api_def : dict) (data : json)
  : result (list json) :=
  match dict_get "result_path" api_def (JStr "") with
  | JStr result_path =>
      let hits := descend (split "." result_path) data in
      let hits := match hits with JList l => l | _ => [] end in
      slice_to (dict_get "result_limit" api_def (JInt 10)) hits
  | _ => Raises AttributeError
  end.

(** [[mapper_func(hit, mapper_config) for hit in hits]] *)
Fixpoint map_hits (mapper_func : json -> result json) (hits : list json)
  : result (list json) :=
  match hits with
  | [] => Returns []
  | hit :: rest =>
      r <- mapper_func hit ;;
      rs <- map_hits mapper_func rest ;;
      Returns (r :: rs)
  end.

(** Lines 401-411: the results of the response, mapped or raw. *)
Definition map_results (reg : registry) (api_def : dict) (hits : list json)
  : result (list json) :=
  let mapper_config := dict_get "mapper" api_def (JDict []) in
  if negb (truthy mapper_config) then Returns hits
  else
    strategy <- py_get mapper_config "strategy" (JStr "flat_object") ;;
    match strategy with
    | JStr name => map_hits (fun hit => mapHit reg name hit mapper_config) hits
    | _ => Raises TypeError
    end.

(** What [search_api] answers: [{'results': results, 'total': len(results)}],
    or [{'results': [], 'error': ...}] with the upstream status or with the
    exception caught at line 416 (its message is not modelled). *)
Inductive failure : Type :=
| ApiReturned (status : Z)
| Caught (e : exn).

Inductive response : Type :=
| Found (results : list json)
| Failed (error : failure).

Definition results_of (r : response) : list json :=
  match r with
  | Found results => results
  | Failed _ => []
  end.

Definition total_of (r : response) : option nat :=
  match r with
  | Found results => Some (List.length results)
  | Failed _ => None
  end.

(** Lines 380-418, for the status and the parsed body of the upstream
    response. *)
Definition handle_response (reg : registry) (api_def : dict) (status : Z)
  (data : json) : response :=
  if negb (Z.eqb status 200) then Failed (ApiReturned status)
  else
    match (hits <- extract_hits api_def data ;; map_results reg api_def hits) with
    | Returns results => Found results
    | Raises e => Failed (Caught e)
    end.

End SearchApi.

Import SearchApi.

(** Bodies and an API definition after tests/test_server.py. *)

Definition solr_body : json :=
  JDict [("response",
          JDict [("docs",
                  JList [JDict [("label", JStr "Mus musculus")];
                         JDict [("label", JStr "Mus spretus")];
                         JDict [("label", JStr "Mus caroli")]])])].

Definition solr_api : dict :=
  [("result_path", JStr "response.docs"); ("result_limit", JInt 2);
   ("mapper", JDict [("strategy", JStr "obo_ontology");
                     ("scheme", JStr "NCBITaxon")])].

Definition mixed_body : json :=
  JDict [("response",
          JDict [("docs", JList [JDict [("label", JStr "Mus musculus")];
                                 JStr "not a record"])])].

(* ------------------------------------------------------------------ *)
(** ** Notions the properties are stated with *)

(** [a] is [s] with some characters left out. *)
Inductive fragment : string -> string -> Prop :=
| fragment_nil : fragment EmptyString EmptyString
| fragment_keep (c : ascii) (a s : string) :
    fragment a s -> fragment (String c a) (String c s)
| fragment_drop (c : ascii) (a s : string) :
    fragment a s -> fragment a (String c s).

(** No index segment cut out of [s] can be refused by [int]: [s] has no
    superscript digit and no more characters than [int] converts. *)
Definition int_safe (s : string) : bool :=
  all_chars (fun c => negb (is_superscript_digit c)) s
  && Nat.leb (String.length s) int_max_str_digits.

Definition int_safe_template (template : json) : bool :=
  match template with
  | JStr s => int_safe s
  | _ => true
  end.

Definition is_str (v : json) : bool :=
  match v with JStr _ => true | _ => false end.

(** A cross-reference entry as the data model has it: an object whose
    templates are safe. *)
Definition xref_ok (entry : string * json) : bool :=
  match snd entry with
  | JDict t =>
      int_safe_template (dict_get "condition" t JNull)
      && int_safe_template (dict_get "id" t (JStr ""))
      && int_safe_template (dict_get "uri" t (JStr ""))
  | _ => false
  end.

Definition xrefs_ok (xrefs_config : json) : bool :=
  match xrefs_config with
  | JDict items => forallb xref_ok items
  | _ => false
  end.

(** A mapper configuration as the data model has it: safe templates, an
    [xrefs] member that maps names to entries, a [function_name] that can be
    looked up. *)
Definition config_ok (config : dict) : bool :=
  int_safe_template (dict_get "label" config (JStr ""))
  && int_safe_template (dict_get "sublabel" config (JStr ""))
  && int_safe_template (dict_get "id" config (JStr ""))
  && match lookup "xrefs" config with
     | Some x => xrefs_ok x
     | None => true
     end
  && match dict_get "function_name" config JNull with
     | JList (_ :: _) | JDict (_ :: _) => false
     | _ => true
     end.

(** The string a template resolves to. *)
Definition resolved (template hit : json) : string :=
  returned "" (resolve template hit).

(** Cross-reference resolution of one entry, after the specification: what
    the entry contributes to the output mapping. *)
Definition xref_entry (hit : json) (entry : string * json) : dict :=
  let (db, xref_tpl) := entry in
  match xref_tpl with
  | JDict t =>
      if dict_has "condition" t
         && is_empty (resolved (dict_get "condition" t JNull) hit)
      then []
      else if is_empty (resolved (dict_get "id" t (JStr "")) hit) then []
      else [(db, JDict [("id", JStr (resolved (dict_get "id" t (JStr "")) hit));
                        ("uri", JStr (resolved (dict_get "uri" t (JStr "")) hit));
                        ("label", dict_get "label" t (JStr (upper db)))])]
  | _ => []
  end.

(** The match of the filtered-array algorithm, after the specification: the
    element is a mapping whose FIELD member equals VALUE or is a sequence
    with VALUE as a member. *)
Definition field_matches (field value : string) (item : json) : Prop :=
  exists d, item = JDict d /\
    (lookup field d = Some (JStr value)
     \/ exists l, lookup field d = Some (JList l) /\ In (JStr value) l).

(** A filtered-array expression written out. *)
Definition filter_path (base field value res : string) : string :=
  base ++ ".[?" ++ field ++ "=" ++ value ++ "]." ++ res.

Definition lacks (c : ascii) (s : string) : bool :=
  all_chars (fun x => negb (Ascii.eqb x c)) s.

(** [del d[key]] on the association list. *)
Fixpoint dict_del (key : string) (d : dict) : dict :=
  match d with
  | [] => []
  | (k, v) :: rest =>
      if String.eqb k key then dict_del key rest
      else (k, v) :: dict_del key rest
  end.

(** The alternative yields an absent value or the empty string. *)
Definition passed_over (data : json) (part : string) : Prop :=
  exists w, _resolve_path part data = Returns w /\ (w = JNull \/ w = JStr "").

(** The strategy names under which [mapHit] runs the generic mapper: the
    three generic strategies, [custom] without a registered function, and
    every name that is no attribute of the class. *)
Definition runs_generic (reg : registry) (strategy : string) (config : dict)
  : bool :=
  if String.eqb strategy "custom" then
    match dict_get "function_name" config JNull with
    | JStr name =>
        match registered name reg with
        | Some _ => is_empty name
        | None => true
        end
    | _ => true
    end
  else
    match class_attribute reg strategy with
    | Some _ =>
        String.eqb strategy "flat_object" || String.eqb strategy "nested_object"
        || String.eqb strategy "array_find"
    | None => negb (python_class_name strategy)
    end.

(** The hits a strategy can read: any document for the generic mapper, an
    object for [obo_ontology], what the registered function accepts for
    [custom]. *)
Definition hit_fits (reg : registry) (strategy : string) (hit : json)
  (config : dict) : bool :=
  runs_generic reg strategy config
  || (String.eqb strategy "obo_ontology" && is_dict hit)
  || (String.eqb strategy "custom"
      && match dict_get "function_name" config JNull with
         | JStr name =>
             match registered name reg with
             | Some f => is_returns (f hit (JDict config))
             | None => false
             end
         | _ => false
         end).

(** The record has member [key], a string. *)
Definition str_member (key : string) (record : dict) : Prop :=
  exists s, lookup key record = Some (JStr s).

(** What the generic mapper attaches after the four members. *)
Definition xrefs_member (hit : json) (config : dict) : dict :=
  match lookup "xrefs" config with
  | Some x => [("xrefs", returned JNull (_resolve_xrefs hit x))]
  | None => []
  end.

(** A value without members: [None], a boolean, a number or a string. *)
Definition is_leaf (v : json) : bool :=
  match v with
  | JList _ | JDict _ => false
  | _ => true
  end.

(** The index segment written for [n]. *)
Definition index_segment (n : N) : string :=
  "[" ++ NilEmpty.string_of_uint (N.to_uint n) ++ "]".

(** The [function_name] of the configuration names a registered mapper. *)
Definition custom_target (reg : registry) (config : dict) : option mapper :=
  match dict_get "function_name" config JNull with
  | JStr name => if is_empty name then None else registered name reg
  | _ => None
  end.

(** The [function_name] of the configuration cannot be hashed. *)
Definition unhashable_name (config : dict) : bool :=
  match dict_get "function_name" config JNull with
  | JList (_ :: _) | JDict (_ :: _) => true
  | _ => false
  end.

(** The shape of an emitted cross-reference. *)
Definition emitted_xref (v : json) : Prop :=
  exists id uri label,
    v = JDict [("id", JStr id); ("uri", JStr uri); ("label", label)]
    /\ is_empty id = false.

(** SUPERSCRIPT TWO, a digit for [isdigit] that [int] refuses. *)
Definition superscript_two : string := String (ascii_of_nat 178) EmptyString.

(** The index segment written with it. *)
Definition superscript_index : string := "[" ++ superscript_two ++ "]".

(** The strings on which [upper] is [str.upper()]: those without MICRO SIGN
    and without y with diaeresis. *)
Definition upper_exact (s : string) : bool :=
  all_chars (fun c => negb (Nat.eqb (code c) 181 || Nat.eqb (code c) 255)) s.

(** The label of the entry is the configuration's, or the key is one that
    [upper] capitalises as Python does. *)
Definition xref_label_ok (entry : string * json) : bool :=
  match snd entry with
  | JDict t => dict_has "label" t || upper_exact (fst entry)
  | _ => true
  end.

(** A cross-reference configuration with an entry that has no label. *)
Definition ensembl_xrefs : dict :=
  [("mgi", JDict [("condition", JStr "{{MGI}}"); ("id", JStr "{{MGI}}");
                  ("uri", JStr "https://identifiers.org/mgi:{{MGI}}");
                  ("label", JStr "Mouse Genome Informatics")]);
   ("rgd", JDict [("condition", JStr "{{RGD}}"); ("id", JStr "{{RGD}}")]);
   ("ensembl", JDict [("id", JStr "{{ensembl.gene}}")])].

Definition ensembl_hit : json :=
  JDict [("MGI", JStr "88057"); ("RGD", JNull);
         ("ensembl", JDict [("gene", JStr "ENSMUSG00000002985")])].

(* ------------------------------------------------------------------ *)
(** ** The unit tests of tests/test_server.py *)

Example py_str_list :
  py_str (JList [JStr "ab"; JInt (-12); JNull; JDict [("k", JBool true)]])
  = "['ab', -12, None, {'k': True}]".
Proof. reflexivity. Qed.

Example test_simple_key :
  resolve (JStr "{{symbol}}") (JDict [("symbol", JStr "Apoe")]) = Returns "Apoe".
Proof. reflexivity. Qed.

Example test_nested_key :
  resolve (JStr "{{given-names}} {{family-names}}")
    (JDict [("given-names", JStr "Marie"); ("family-names", JStr "Curie")])
  = Returns "Marie Curie".
Proof. reflexivity. Qed.

Example test_array_index :
  resolve (JStr "{{institution-name.[0]}}")
    (JDict [("institution-name", JList [JStr "Institut Pasteur"; JStr "CNRS"])])
  = Returns "Institut Pasteur".
Proof. reflexivity. Qed.

Example test_array_index_out_of_bounds :
  resolve (JStr "{{institution-name.[0]}}")
    (JDict [("institution-name", JList [])]) = Returns "".
Proof. reflexivity. Qed.

Example test_fallback_or :
  resolve (JStr "{{a || b}}") (JDict [("b", JStr "fallback_value")])
  = Returns "fallback_value".
Proof. reflexivity. Qed.

Example test_fallback_first_wins :
  resolve (JStr "{{a || b}}") (JDict [("a", JStr "first"); ("b", JStr "second")])
  = Returns "first".
Proof. reflexivity. Qed.

Example test_no_template :
  resolve (JStr "plain string") (JDict []) = Returns "plain string".
Proof. reflexivity. Qed.

Example test_empty_template :
  resolve (JStr "") (JDict []) = Returns "".
Proof. reflexivity. Qed.

Example test_missing_key_returns_empty :
  resolve (JStr "{{nonexistent}}") (JDict []) = Returns "".
Proof. reflexivity. Qed.

Example test_filtered_array :
  resolve (JStr "{{names.[?types=ror_display].value}}")
    (JDict [("names", ror_names)]) = Returns "Display Name".
Proof. reflexivity. Qed.

Example test_filtered_array_no_match :
  resolve (JStr "{{names.[?types=ror_display].value}}")
    (JDict [("names",
             JList [JDict [("types", JList [JStr "label"]);
                           ("value", JStr "Label Name")]])])
  = Returns "".
Proof. reflexivity. Qed.

Example test_nested_dot_path :
  resolve (JStr "{{ensembl.gene}}")
    (JDict [("ensembl", JDict [("gene", JStr "ENSMUSG00000002985")])])
  = Returns "ENSMUSG00000002985".
Proof. reflexivity. Qed.

Example test_none_data_value :
  resolve (JStr "{{key}}") (JDict [("key", JNull)]) = Returns "".
Proof. reflexivity. Qed.

(** [int] refuses a superscript digit that [isdigit] accepted. *)
Example index_superscript_two :
  resolve (JStr (String "{" (String "{" (String "["
            (String (ascii_of_nat 178) "]}}"))))) (JDict [])
  = Raises ValueError.
Proof. reflexivity. Qed.

Example test_obo_ontology_missing_fields :
  obo_ontology (JDict [])
    (JDict [("strategy", JStr "obo_ontology"); ("scheme", JStr "EFO")])
  = Returns (JDict [("label", JStr "?"); ("sublabel", JStr ""); ("id", JStr "");
                    ("scheme", JStr "EFO"); ("description", JStr "")]).
Proof. reflexivity. Qed.

Example test_flat_object :
  flat_object
    (JDict [("symbol", JStr "Apoe"); ("name", JStr "apolipoprotein E");
            ("_id", JStr "11287")])
    (JDict [("strategy", JStr "flat_object"); ("label", JStr "{{symbol}}");
            ("sublabel", JStr "{{name}}");
            ("id", JStr "https://identifiers.org/ncbigene:{{_id}}");
            ("scheme", JStr "GeneID")])
  = Returns (JDict [("label", JStr "Apoe");
                    ("sublabel", JStr "apolipoprotein E");
                    ("id", JStr "https://identifiers.org/ncbigene:11287");
                    ("scheme", JStr "GeneID")]).
Proof. reflexivity. Qed.

Example test_resolve_xrefs_with_condition :
  _resolve_xrefs mygene_hit mygene_xrefs
  = Returns (JDict [("ncbi_gene",
                     JDict [("id", JStr "11287");
                            ("uri", JStr "https://identifiers.org/ncbigene:11287");
                            ("label", JStr "NCBI Gene")]);
                    ("mgi",
                     JDict [("id", JStr "88057");
                            ("uri", JStr "https://identifiers.org/mgi:88057");
                            ("label", JStr "MGI")])]).
Proof. reflexivity. Qed.

Example test_array_find_strategy :
  array_find
    (JDict [("names",
             JList [JDict [("types", JList [JStr "label"]);
                           ("value", JStr "ROR Label")];
                    JDict [("types", JList [JStr "ror_display"]);
                           ("value", JStr "ROR Display")]]);
            ("addresses", JList [JDict [("city", JStr "Paris")]]);
            ("country", JDict [("country_name", JStr "France")]);
            ("id", JStr "https://ror.org/abc123")])
    (JDict [("strategy", JStr "array_find");
            ("label", JStr "{{names.[?types=ror_display].value || names.[?types=label].value}}");
            ("sublabel", JStr "{{addresses.[0].city}}, {{country.country_name}}");
            ("id", JStr "{{id}}"); ("scheme", JStr "ROR")])
  = Returns (JDict [("label", JStr "ROR Display");
                    ("sublabel", JStr "Paris, France");
                    ("id", JStr "https://ror.org/abc123");
                    ("scheme", JStr "ROR")]).
Proof. reflexivity. Qed.

(** The filter pattern. *)

Example filter_base_is_one_key :
  match_filter "a.b.[?x=y].z" = None.
Proof. reflexivity. Qed.

Example filter_result_stops_at_line_feed :
  match_filter ("a.[?b=c].d" ++ String "010" "e") = Some ("a", "b", "c", "d").
Proof. reflexivity. Qed.

Example placeholder_takes_inner_brace :
  match_placeholder "{{{a}}" = Some "{a".
Proof. reflexivity. Qed.

Example split_on_double_bar :
  split "||" "a|||b||" = ["a"; "|b"; ""].
Proof. reflexivity. Qed.

Example resolve_non_string_template :
  resolve (JInt 0) JNull = Returns ""
  /\ resolve (JInt 42) JNull = Returns "42"
  /\ resolve (JBool true) JNull = Returns "True".
Proof. repeat split. Qed.

Example normalize_mgi_prefixes :
  mapHit CUSTOM_MAPPERS "custom"
    (JDict [("symbol", JStr "Apoe"); ("MGI", JList [JInt 88057])])
    (JDict [("strategy", JStr "custom"); ("function_name", JStr "normalize_mgi")])
  = Returns (JDict [("label", JStr "Apoe"); ("sublabel", JStr "");
                    ("id", JStr "https://identifiers.org/mgi:MGI:88057");
                    ("scheme", JStr "MGI")]).
Proof. reflexivity. Qed.

(* ------------------------------------------------------------------ *)
(** ** Strings *)

Section StringFacts.

Lemma is_empty_true (s : string) : is_empty s = true -> s = EmptyString.
Proof. destruct s; simpl; [reflexivity | discriminate]. Qed.

Lemma append_empty_r (s : string) : s ++ EmptyString = s.
Proof. induction s as [|c s IH]; simpl; [reflexivity | now rewrite IH]. Qed.

Lemma append_assoc (a b c : string) : (a ++ b) ++ c = a ++ (b ++ c).
Proof. induction a as [|x a IH]; simpl; [reflexivity | now rewrite IH]. Qed.

Lemma append_length (a b : string) :
  String.length (a ++ b) = String.length a + String.length b.
Proof. induction a as [|x a IH]; simpl; [reflexivity | now rewrite IH]. Qed.

Lemma fragment_empty (s : string) : fragment EmptyString s.
Proof. induction s; constructor; assumption. Qed.

Lemma fragment_refl (s : string) : fragment s s.
Proof. induction s; constructor; assumption. Qed.

Lemma fragment_trans (a b c : string) :
  fragment a b -> fragment b c -> fragment a c.
Proof.
  intros Hab Hbc. revert a Hab.
  induction Hbc as [|x b c Hbc IH|x b c Hbc IH]; intros a Hab.
  - assumption.
  - inversion Hab; subst.
    + apply fragment_keep. now apply IH.
    + apply fragment_drop. now apply IH.
  - apply fragment_drop. now apply IH.
Qed.

Lemma fragment_length (a s : string) :
  fragment a s -> String.length a <= String.length s.
Proof. induction 1; simpl; lia. Qed.

Lemma fragment_all_chars (p : ascii -> bool) (a s : string) :
  fragment a s -> all_chars p s = true -> all_chars p a = true.
Proof.
  induction 1 as [|c a s H IH|c a s H IH]; simpl; intros Hs.
  - reflexivity.
  - apply andb_true_iff in Hs as [Hc Hs]. rewrite Hc. now apply IH.
  - apply andb_true_iff in Hs as [_ Hs]. now apply IH.
Qed.

Lemma fragment_int_safe (a s : string) :
  fragment a s -> int_safe s = true -> int_safe a = true.
Proof.
  unfold int_safe. intros H Hs.
  apply andb_true_iff in Hs as [Hc Hl]. apply andb_true_iff. split.
  - eapply fragment_all_chars; eassumption.
  - apply Nat.leb_le. apply Nat.leb_le in Hl.
    pose proof (fragment_length _ _ H). lia.
Qed.

Lemma fragment_append_l (a b : string) : fragment b (a ++ b).
Proof.
  induction a as [|c a IH]; simpl.
  - apply fragment_refl.
  - now apply fragment_drop.
Qed.

Lemma fragment_append_r (a b : string) : fragment a (a ++ b).
Proof.
  induction a as [|c a IH]; simpl.
  - apply fragment_empty.
  - now apply fragment_keep.
Qed.

(** [span_not] cuts its argument in two. *)
Lemma span_not_append (stop : ascii) (s : string) :
  fst (span_not stop s) ++ snd (span_not stop s) = s.
Proof.
  induction s as [|c s IH]; simpl.
  - reflexivity.
  - destruct (Ascii.eqb c stop); simpl.
    + reflexivity.
    + destruct (span_not stop s) as [p r]; simpl in *. now rewrite IH.
Qed.

Lemma span_not_lacks (stop : ascii) (s : string) :
  lacks stop (fst (span_not stop s)) = true.
Proof.
  induction s as [|c s IH]; simpl.
  - reflexivity.
  - destruct (Ascii.eqb c stop) eqn:E; simpl.
    + reflexivity.
    + destruct (span_not stop s) as [p r]; simpl in *.
      unfold lacks in *. simpl. now rewrite E, IH.
Qed.

Lemma span_not_fst_fragment (stop : ascii) (s : string) :
  fragment (fst (span_not stop s)) s.
Proof.
  rewrite <- (span_not_append stop s) at 2. apply fragment_append_r.
Qed.

Lemma span_not_snd_fragment (stop : ascii) (s : string) :
  fragment (snd (span_not stop s)) s.
Proof.
  rewrite <- (span_not_append stop s) at 2. apply fragment_append_l.
Qed.

(** On a string free of [stop] followed by [stop], [span_not] finds the cut. *)
Lemma span_not_exact (stop : ascii) (a rest : string) :
  lacks stop a = true ->
  span_not stop (a ++ String stop rest) = (a, String stop rest).
Proof.
  unfold lacks. induction a as [|c a IH]; simpl; intros H.
  - now rewrite Ascii.eqb_refl.
  - apply andb_true_iff in H as [Hc Ha]. apply negb_true_iff in Hc.
    rewrite Hc, (IH Ha). reflexivity.
Qed.

Lemma span_not_whole (stop : ascii) (a : string) :
  lacks stop a = true -> span_not stop a = (a, EmptyString).
Proof.
  unfold lacks. induction a as [|c a IH]; simpl; intros H.
  - reflexivity.
  - apply andb_true_iff in H as [Hc Ha]. apply negb_true_iff in Hc.
    rewrite Hc, (IH Ha). reflexivity.
Qed.

Lemma lstrip_fragment (s : string) : fragment (lstrip s) s.
Proof.
  induction s as [|c s IH]; simpl.
  - constructor.
  - destruct (is_space c).
    + now apply fragment_drop.
    + apply fragment_refl.
Qed.

Lemma rstrip_fragment (s : string) : fragment (rstrip s) s.
Proof.
  induction s as [|c s IH]; simpl.
  - constructor.
  - destruct (is_empty (rstrip s) && is_space c).
    + apply fragment_empty.
    + now apply fragment_keep.
Qed.

Lemma strip_fragment (s : string) : fragment (strip s) s.
Proof.
  unfold strip. eapply fragment_trans.
  - apply rstrip_fragment.
  - apply lstrip_fragment.
Qed.

Lemma drop_last_fragment (s : string) : fragment (drop_last s) s.
Proof.
  induction s as [|c s IH]; simpl.
  - constructor.
  - destruct (is_empty s).
    + apply fragment_empty.
    + now apply fragment_keep.
Qed.

Lemma slice_1_m1_fragment (s : string) : fragment (slice_1_m1 s) s.
Proof.
  destruct s as [|c s]; simpl.
  - constructor.
  - apply fragment_drop, drop_last_fragment.
Qed.

(** Every piece of a split is cut out of the string. *)
Lemma split_go_fragment (sep : string) (s : string) :
  forall skip,
    fragment (fst (split_go sep skip s)) s
    /\ Forall (fun p => fragment p s) (snd (split_go sep skip s)).
Proof.
  induction s as [|c s IH]; intros skip; simpl.
  - split; constructor.
  - destruct skip as [|k].
    + destruct (startswith sep (String c s)).
      * destruct (IH (String.length sep - 1)) as [H1 H2].
        destruct (split_go sep (String.length sep - 1) s) as [p ps].
        simpl in *. split.
        -- apply fragment_empty.
        -- constructor.
           ++ now apply fragment_drop.
           ++ eapply Forall_impl; [|exact H2].
              intros a Ha. now apply fragment_drop.
      * destruct (IH 0) as [H1 H2].
        destruct (split_go sep 0 s) as [p ps]. simpl in *. split.
        -- now apply fragment_keep.
        -- eapply Forall_impl; [|exact H2].
           intros a Ha. now apply fragment_drop.
    + destruct (IH k) as [H1 H2]. split.
      * now apply fragment_drop.
      * eapply Forall_impl; [|exact H2].
        intros a Ha. now apply fragment_drop.
Qed.

Lemma split_fragment (sep s : string) :
  Forall (fun p => fragment p s) (split sep s).
Proof.
  unfold split. destruct (split_go_fragment sep s 0) as [H1 H2].
  destruct (split_go sep 0 s) as [p ps]. simpl in *.
  constructor; assumption.
Qed.

Lemma split_not_nil (sep s : string) : split sep s <> [].
Proof. unfold split. destruct (split_go sep 0 s). discriminate. Qed.

(** A string that lacks [c] has no substring that starts with [c]. *)
Lemma lacks_contains (c : ascii) (sub s : string) :
  lacks c s = true -> contains (String c sub) s = false.
Proof.
  unfold lacks. induction s as [|x s IH]; simpl; intros H.
  - reflexivity.
  - apply andb_true_iff in H as [Hx Hs]. apply negb_true_iff in Hx.
    rewrite Ascii.eqb_sym, Hx. simpl. now apply IH.
Qed.

End StringFacts.

(* ------------------------------------------------------------------ *)
(** ** The resolver returns on safe templates *)

Section ResolverReturns.

Lemma py_int_returns (s : string) :
  isdigit s = true -> int_safe s = true -> exists n, py_int s = Returns n.
Proof.
  unfold isdigit, int_safe, py_int. intros Hd Hs.
  apply andb_true_iff in Hd as [Hne Hd].
  apply andb_true_iff in Hs as [Hsup Hlen].
  rewrite Hne, Hlen.
  assert (Ha : all_chars is_ascii_digit s = true).
  { clear Hne Hlen. induction s as [|c s IH]; simpl in *.
    - reflexivity.
    - apply andb_true_iff in Hd as [Hc Hd].
      apply andb_true_iff in Hsup as [Hn Hsup].
      apply negb_true_iff in Hn. rewrite Hn, orb_false_r in Hc.
      rewrite Hc. now apply IH. }
  rewrite Ha. simpl. eexists. reflexivity.
Qed.

Lemma walk_cons (part : string) (rest : list string) (current : json) :
  walk (part :: rest) current =
  if is_none current then Returns JNull
  else if startswith "[" part && endswith "]" part then
    if negb (isdigit (slice_1_m1 part)) then Returns JNull
    else
      idx <- py_int (slice_1_m1 part) ;;
      match current with
      | JList l =>
          if N.ltb idx (N.of_nat (List.length l))
          then walk rest (nth (N.to_nat idx) l JNull)
          else Returns JNull
      | _ => Returns JNull
      end
  else
    match current with
    | JDict d => walk rest (dict_get part d JNull)
    | _ => Returns JNull
    end.
Proof. reflexivity. Qed.

Lemma walk_returns (parts : list string) :
  Forall (fun p => int_safe p = true) parts ->
  forall current, exists v, walk parts current = Returns v.
Proof.
  induction 1 as [|part rest Hp Hrest IH]; intros current.
  - eexists. reflexivity.
  - rewrite walk_cons.
    destruct (is_none current); [eexists; reflexivity|].
    destruct (startswith "[" part && endswith "]" part).
    + destruct (isdigit (slice_1_m1 part)) eqn:Hd;
        [|eexists; reflexivity].
      destruct (py_int_returns (slice_1_m1 part) Hd) as [n Hn].
      { eapply fragment_int_safe; [apply slice_1_m1_fragment | exact Hp]. }
      rewrite Hn. cbn [negb bind].
      destruct current; try (eexists; reflexivity).
      destruct (N.ltb n (N.of_nat (List.length l)));
        [apply IH | eexists; reflexivity].
    + destruct current; try (eexists; reflexivity). apply IH.
Qed.

Lemma split_int_safe (sep s : string) :
  int_safe s = true -> Forall (fun p => int_safe p = true) (split sep s).
Proof.
  intros Hs. eapply Forall_impl; [|apply split_fragment].
  intros a Ha. simpl in Ha. eapply fragment_int_safe; eassumption.
Qed.

Lemma resolve_plain_returns (path : string) (data : json) :
  int_safe path = true -> exists v, _resolve_plain path data = Returns v.
Proof.
  intros Hs. unfold _resolve_plain.
  destruct (is_empty path); [eexists; reflexivity|].
  apply walk_returns. now apply split_int_safe.
Qed.

(** The groups of the filter pattern are cut out of the path. *)
Lemma match_filter_base (path base field value res : string) :
  match_filter path = Some (base, field, value, res) ->
  base = fst (span_not "." path) /\ is_empty base = false.
Proof.
  unfold match_filter. destruct (span_not "." path) as [b r1]. simpl.
  destruct r1 as [|c1 r1]; [discriminate|].
  destruct (Ascii.eqb c1 ".") eqn:E1;
    [apply Ascii.eqb_eq in E1; subst c1
    | destruct c1 as [[] [] [] [] [] [] [] []]; try discriminate E1;
      discriminate].
  destruct r1 as [|c2 r1]; [discriminate|].
  destruct (Ascii.eqb c2 "[") eqn:E2;
    [apply Ascii.eqb_eq in E2; subst c2
    | destruct c2 as [[] [] [] [] [] [] [] []]; try discriminate E2;
      discriminate].
  destruct r1 as [|c3 r1]; [discriminate|].
  destruct (Ascii.eqb c3 "?") eqn:E3;
    [apply Ascii.eqb_eq in E3; subst c3
    | destruct c3 as [[] [] [] [] [] [] [] []]; try discriminate E3;
      discriminate].
  destruct (span_not "=" r1) as [f r3].
  destruct r3 as [|c4 r3]; [discriminate|].
  destruct (Ascii.eqb c4 "=") eqn:E4;
    [apply Ascii.eqb_eq in E4; subst c4
    | destruct c4 as [[] [] [] [] [] [] [] []]; try discriminate E4;
      discriminate].
  destruct (span_not "]" r3) as [v r5].
  destruct r5 as [|c5 r5]; [discriminate|].
  destruct (Ascii.eqb c5 "]") eqn:E5;
    [apply Ascii.eqb_eq in E5; subst c5
    | destruct c5 as [[] [] [] [] [] [] [] []]; try discriminate E5;
      discriminate].
  destruct r5 as [|c6 r5]; [discriminate|].
  destruct (Ascii.eqb c6 ".") eqn:E6;
    [apply Ascii.eqb_eq in E6; subst c6
    | destruct c6 as [[] [] [] [] [] [] [] []]; try discriminate E6;
      discriminate].
  destruct (span_not "010" r5) as [rs r7].
  destruct (is_empty b) eqn:Eb; simpl; [discriminate|].
  destruct (is_empty f || is_empty v || is_empty rs); [discriminate|].
  intros H. injection H as <- _ _ _. split; [reflexivity | exact Eb].
Qed.

(** Line 136 calls [_resolve_path] on the base, and that call is the plain
    branch. *)
Lemma resolve_path_base (path base field value res : string) (data : json) :
  match_filter path = Some (base, field, value, res) ->
  _resolve_path base data = _resolve_plain base data.
Proof.
  intros H. apply match_filter_base in H as [Hb Hne].
  unfold _resolve_path, _resolve_plain. rewrite Hne.
  rewrite (lacks_contains "." "[?" base); [reflexivity|].
  rewrite Hb. apply span_not_lacks.
Qed.

Lemma resolve_filtered_array_returns (path : string) (data : json) :
  int_safe path = true ->
  exists v, _resolve_filtered_array path data = Returns v.
Proof.
  intros Hs. unfold _resolve_filtered_array.
  destruct (match_filter path) as [[[[base f] v] r]|] eqn:Hm;
    [|eexists; reflexivity].
  apply match_filter_base in Hm as [Hb _].
  destruct (resolve_plain_returns base data) as [arr Harr].
  { eapply fragment_int_safe; [|exact Hs].
    rewrite Hb. apply span_not_fst_fragment. }
  rewrite Harr. simpl. destruct arr; eexists; reflexivity.
Qed.

Lemma resolve_path_returns (path : string) (data : json) :
  int_safe path = true -> exists v, _resolve_path path data = Returns v.
Proof.
  intros Hs. unfold _resolve_path.
  destruct (is_empty path); [eexists; reflexivity|].
  destruct (contains ".[?" path).
  - now apply resolve_filtered_array_returns.
  - apply walk_returns. now apply split_int_safe.
Qed.

Lemma first_usable_returns (parts : list string) (data : json) :
  Forall (fun p => int_safe p = true) parts ->
  exists s, first_usable parts data = Returns s.
Proof.
  induction 1 as [|part rest Hp Hrest IH]; simpl.
  - eexists. reflexivity.
  - destruct (resolve_path_returns part data Hp) as [v Hv].
    rewrite Hv. simpl. destruct (usable v); [eexists; reflexivity | exact IH].
Qed.

Lemma alternatives_fragment (body : string) :
  Forall (fun p => fragment p body) (alternatives body).
Proof.
  unfold alternatives. apply Forall_map.
  eapply Forall_impl; [|apply split_fragment].
  intros a Ha. simpl in Ha.
  eapply fragment_trans; [apply strip_fragment|].
  eapply fragment_trans; [exact Ha | apply strip_fragment].
Qed.

Lemma replacer_returns (data : json) (body : string) :
  int_safe body = true -> exists s, replacer data body = Returns s.
Proof.
  intros Hs. unfold replacer. apply first_usable_returns.
  eapply Forall_impl; [|apply alternatives_fragment].
  intros a Ha. simpl in Ha. eapply fragment_int_safe; eassumption.
Qed.

Lemma match_placeholder_fragment (s body : string) :
  match_placeholder s = Some body -> fragment body s.
Proof.
  unfold match_placeholder.
  destruct s as [|c1 s]; [discriminate|].
  destruct (Ascii.eqb c1 "{") eqn:E1;
    [apply Ascii.eqb_eq in E1; subst c1
    | destruct c1 as [[] [] [] [] [] [] [] []]; try discriminate E1;
      discriminate].
  destruct s as [|c2 s]; [discriminate|].
  destruct (Ascii.eqb c2 "{") eqn:E2;
    [apply Ascii.eqb_eq in E2; subst c2
    | destruct c2 as [[] [] [] [] [] [] [] []]; try discriminate E2;
      discriminate].
  pose proof (span_not_fst_fragment "}" s) as Hf.
  destruct (span_not "}" s) as [b rest]. simpl in Hf.
  destruct rest as [|c3 rest]; [discriminate|].
  destruct (Ascii.eqb c3 "}") eqn:E3;
    [apply Ascii.eqb_eq in E3; subst c3
    | destruct c3 as [[] [] [] [] [] [] [] []]; try discriminate E3;
      discriminate].
  destruct rest as [|c4 rest]; [discriminate|].
  destruct (Ascii.eqb c4 "}") eqn:E4;
    [apply Ascii.eqb_eq in E4; subst c4
    | destruct c4 as [[] [] [] [] [] [] [] []]; try discriminate E4;
      discriminate].
  destruct (is_empty b); [discriminate|].
  intros H. injection H as <-. now do 2 apply fragment_drop.
Qed.

Lemma re_sub_skip (repl : string -> result string) (k : nat) (c : ascii)
  (s : string) :
  re_sub repl (S k) (String c s) = re_sub repl k s.
Proof. reflexivity. Qed.

Lemma re_sub_scan (repl : string -> result string) (c : ascii) (s : string) :
  re_sub repl 0 (String c s) =
  match match_placeholder (String c s) with
  | Some body =>
      r <- repl body ;;
      rest <- re_sub repl (String.length body + 3) s ;;
      Returns (r ++ rest)
  | None =>
      rest <- re_sub repl 0 s ;;
      Returns (String c rest)
  end.
Proof. reflexivity. Qed.

Lemma re_sub_returns (repl : string -> result string) (s : string) :
  (forall body, fragment body s -> exists r, repl body = Returns r) ->
  forall skip, exists r, re_sub repl skip s = Returns r.
Proof.
  induction s as [|c s IH]; intros Hrepl skip.
  - eexists. reflexivity.
  - assert (Hs : forall k, exists r, re_sub repl k s = Returns r).
    { apply IH. intros body Hb. apply Hrepl. now apply fragment_drop. }
    destruct skip as [|k]; [|rewrite re_sub_skip; apply Hs].
    rewrite re_sub_scan.
    destruct (match_placeholder (String c s)) as [body|] eqn:Hm.
    + destruct (Hrepl body (match_placeholder_fragment _ _ Hm)) as [r Hr].
      destruct (Hs (String.length body + 3)) as [rest Hrest].
      rewrite Hr. cbn [bind]. rewrite Hrest. eexists. reflexivity.
    + destruct (Hs 0) as [rest Hrest]. rewrite Hrest.
      eexists. reflexivity.
Qed.

Lemma resolve_returns (template data : json) :
  int_safe_template template = true ->
  exists s, resolve template data = Returns s.
Proof.
  intros Hs. destruct template; simpl; try (eexists; reflexivity).
  destruct (is_empty s); [eexists; reflexivity|].
  destruct (contains "{{" s); simpl; [|eexists; reflexivity].
  apply re_sub_returns. intros body Hb. apply replacer_returns.
  simpl in Hs. eapply fragment_int_safe; eassumption.
Qed.

Lemma resolve_resolved (template data : json) :
  int_safe_template template = true ->
  resolve template data = Returns (resolved template data).
Proof.
  intros Hs. unfold resolved.
  destruct (resolve_returns template data Hs) as [s ->]. reflexivity.
Qed.

End ResolverReturns.

(* ------------------------------------------------------------------ *)
(** ** Templates without a placeholder marker *)

(** C8.  A string template that contains no "{{" is returned unchanged by
    [resolve], whatever the document; and when a resolution (of any
    template) produced that string, resolving it once more gives the same
    result. *)
Theorem resolve_without_marker_unchanged (t : json) (s : string) (d : json) :
  contains "{{" s = false ->
  resolve (JStr s) d = Returns s
  /\ (resolve t d = Returns s -> resolve (JStr s) d = resolve t d).
Proof.
  intros Hs.
  assert (H : resolve (JStr s) d = Returns s).
  { unfold resolve. destruct (is_empty s) eqn:E.
    - apply is_empty_true in E. now subst s.
    - now rewrite Hs. }
  split; [exact H | intros Ht; now rewrite Ht].
Qed.

Lemma resolve_without_marker_unchanged_witness :
  contains "{{" "Paris, France" = false
  /\ resolve (JStr "Paris, France") (JDict []) = Returns "Paris, France"
  /\ (resolve (JStr "{{city}}, {{country}}")
        (JDict [("city", JStr "Paris"); ("country", JStr "France")])
      = Returns "Paris, France" ->
      resolve (JStr "Paris, France")
        (JDict [("city", JStr "Paris"); ("country", JStr "France")])
      = resolve (JStr "{{city}}, {{country}}")
          (JDict [("city", JStr "Paris"); ("country", JStr "France")])).
Proof.
  split; [reflexivity|].
  split.
  - apply (resolve_without_marker_unchanged JNull "Paris, France" (JDict [])).
    reflexivity.
  - apply (resolve_without_marker_unchanged
             (JStr "{{city}}, {{country}}") "Paris, France"
             (JDict [("city", JStr "Paris"); ("country", JStr "France")])).
    reflexivity.
Defined.

(* ------------------------------------------------------------------ *)
(** ** The strategies *)

(** C5.  Under the names flat_object, nested_object and array_find [mapHit]
    computes the same thing on every hit and every configuration: the
    generic mapper. *)
Theorem generic_strategies_identical (reg : registry) (hit config : json) :
  mapHit reg "flat_object" hit config = mapHit reg "nested_object" hit config
  /\ mapHit reg "nested_object" hit config = mapHit reg "array_find" hit config
  /\ mapHit reg "flat_object" hit config = _generic_map hit config.
Proof. repeat split. Qed.

Lemma obo_ontology_record (hit config : dict) :
  obo_ontology (JDict hit) (JDict config)
  = Returns (JDict [("label", dict_get "label" hit (JStr "?"));
                    ("sublabel", dict_get "obo_id" hit (JStr ""));
                    ("id", dict_get "iri" hit (JStr ""));
                    ("scheme", dict_get "scheme" config (JStr "OBO"));
                    ("description", dict_get "description" hit (JStr ""))]).
Proof. reflexivity. Qed.

(** C1, as the code has it.  For every hit that is an object and every
    configuration object, obo_ontology returns the record with the keys
    label, sublabel, id, scheme and description, in that order: label is the
    hit's label (default "?"), sublabel its obo_id (default ""), id its iri
    (default ""), scheme the configuration's scheme (default "OBO") and
    description the hit's description (default "").  For every hit that is
    not an object, whatever the configuration, it raises AttributeError. *)
Theorem obo_ontology_five_members (reg : registry) :
  (forall hit config : dict,
      mapHit reg "obo_ontology" (JDict hit) (JDict config)
      = Returns (JDict [("label", dict_get "label" hit (JStr "?"));
                        ("sublabel", dict_get "obo_id" hit (JStr ""));
                        ("id", dict_get "iri" hit (JStr ""));
                        ("scheme", dict_get "scheme" config (JStr "OBO"));
                        ("description", dict_get "description" hit (JStr ""))]))
  /\ (forall hit config : json,
         is_dict hit = false ->
         mapHit reg "obo_ontology" hit config = Raises AttributeError).
Proof.
  split.
  - intros hit config. apply obo_ontology_record.
  - intros hit config Hd.
    change (mapHit reg "obo_ontology" hit config) with (obo_ontology hit config).
    unfold obo_ontology. destruct hit; try reflexivity. discriminate Hd.
Qed.

Lemma obo_ontology_five_members_witness :
  is_dict (JStr "Mus musculus") = false
  /\ mapHit CUSTOM_MAPPERS "obo_ontology" (JStr "Mus musculus") JNull
     = Raises AttributeError
  /\ mapHit CUSTOM_MAPPERS "obo_ontology"
       (JDict [("label", JStr "Mus musculus"); ("description", JNull)])
       (JDict [])
     = Returns (JDict [("label", JStr "Mus musculus"); ("sublabel", JStr "");
                       ("id", JStr ""); ("scheme", JStr "OBO");
                       ("description", JNull)]).
Proof.
  destruct (obo_ontology_five_members CUSTOM_MAPPERS) as [Hobj Hnot].
  split; [reflexivity|]. split.
  - exact (Hnot (JStr "Mus musculus") JNull eq_refl).
  - exact (Hobj [("label", JStr "Mus musculus"); ("description", JNull)] []).
Defined.

(** C1 as stated fails: on the specification's own example the record has
    a description member, also when the hit has a description; and a hit
    that is not an object has no [get]. *)
Lemma obo_ontology_emits_description :
  mapHit CUSTOM_MAPPERS "obo_ontology" (JDict []) (JDict [("scheme", JStr "EFO")])
  <> Returns (JDict [("label", JStr "?"); ("sublabel", JStr "");
                     ("id", JStr ""); ("scheme", JStr "EFO")])
  /\ ~ (forall r,
          mapHit CUSTOM_MAPPERS "obo_ontology"
            (JDict [("label", JStr "Mus musculus");
                    ("description", JList [JStr "House mouse"])])
            (JDict [("scheme", JStr "NCBITaxon")]) = Returns (JDict r) ->
          keys r = ["label"; "sublabel"; "id"; "scheme"]
          /\ dict_has "description" r = false)
  /\ mapHit CUSTOM_MAPPERS "obo_ontology" (JList []) (JDict [])
     = Raises AttributeError.
Proof.
  split; [discriminate|]. split; [|reflexivity].
  intros H. destruct (H _ eq_refl) as [_ Hd]. discriminate Hd.
Qed.

(* ------------------------------------------------------------------ *)
(** ** Fallback chains *)

Section Fallback.

Variable data : json.

(** The test of the loop: the value is present and is not the empty string. *)
Lemma usable_false (w : json) : w = JNull \/ w = JStr "" -> usable w = false.
Proof. intros [-> | ->]; reflexivity. Qed.

Lemma usable_true (v : json) : v <> JNull -> v <> JStr "" -> usable v = true.
Proof.
  intros Hn He. destruct v; try reflexivity.
  - contradiction.
  - destruct s; [contradiction | reflexivity].
Qed.

Lemma first_usable_skips (pre rest : list string) :
  Forall (passed_over data) pre ->
  first_usable (pre ++ rest)%list data = first_usable rest data.
Proof.
  induction 1 as [|p pre [w [Hw Hu]] Hpre IH]; simpl.
  - reflexivity.
  - rewrite Hw. simpl. rewrite (usable_false w Hu). exact IH.
Qed.

Lemma first_usable_takes (part : string) (rest : list string) (v : json) :
  _resolve_path part data = Returns v -> v <> JNull -> v <> JStr "" ->
  first_usable (part :: rest) data = Returns (py_str v).
Proof.
  intros Hv Hn He. simpl. rewrite Hv. simpl.
  now rewrite (usable_true v Hn He).
Qed.

Lemma first_usable_none (parts : list string) :
  Forall (passed_over data) parts -> first_usable parts data = Returns "".
Proof.
  intros H. rewrite <- (app_nil_r parts). now rewrite first_usable_skips.
Qed.

(** A template that is one placeholder resolves to what [replacer] gives
    for its body. *)
Lemma re_sub_skip_all (repl : string -> result string) (s : string) :
  re_sub repl (String.length s) s = Returns "".
Proof. induction s as [|c s IH]; [reflexivity | exact IH]. Qed.

Lemma match_placeholder_exact (body : string) :
  is_empty body = false -> lacks "}" body = true ->
  match_placeholder ("{{" ++ body ++ "}}") = Some body.
Proof.
  intros Hne Hl. unfold match_placeholder. cbn [append].
  rewrite (span_not_exact "}" body "}" Hl). now rewrite Hne.
Qed.

Lemma resolve_placeholder (body : string) :
  is_empty body = false -> lacks "}" body = true ->
  resolve (JStr ("{{" ++ body ++ "}}")) data = replacer data body.
Proof.
  intros Hne Hl. unfold resolve. cbn [append is_empty contains startswith].
  rewrite !Ascii.eqb_refl. cbn [andb orb negb].
  change (String "{" (String "{" (body ++ "}}"))) with ("{{" ++ body ++ "}}").
  cbn [append]. rewrite re_sub_scan.
  change (String "{" (String "{" (body ++ "}}"))) with ("{{" ++ body ++ "}}").
  rewrite (match_placeholder_exact body Hne Hl).
  destruct (replacer data body) as [r|e]; [|reflexivity]. cbn [bind].
  replace (String.length body + 3)
    with (String.length (String "{" (body ++ "}}"))).
  - rewrite re_sub_skip_all. cbn [bind]. now rewrite append_empty_r.
  - cbn [String.length]. rewrite append_length. simpl. lia.
Qed.

End Fallback.

(** X21.  The alternatives of a placeholder body are tried from left to
    right: when every alternative before one yields an absent value or the
    empty string, and that one yields a usable value, the placeholder
    resolves to the [str] of that value; when every alternative yields an
    absent value or the empty string, it resolves to the empty string.  A
    template made of the placeholder alone resolves to the same string. *)
Theorem fallback_first_usable (data : json) (body : string)
  (pre : list string) :
  Forall (passed_over data) pre ->
  (forall part post v,
      alternatives body = (pre ++ part :: post)%list ->
      _resolve_path part data = Returns v -> v <> JNull -> v <> JStr "" ->
      replacer data body = Returns (py_str v))
  /\ (alternatives body = pre -> replacer data body = Returns "")
  /\ (is_empty body = false -> lacks "}" body = true ->
      resolve (JStr ("{{" ++ body ++ "}}")) data = replacer data body).
Proof.
  intros Hpre. repeat split.
  - intros part post v Halt Hv Hn He. unfold replacer. rewrite Halt.
    rewrite first_usable_skips by exact Hpre.
    now apply first_usable_takes.
  - intros Halt. unfold replacer. rewrite Halt.
    now apply first_usable_none.
  - apply resolve_placeholder.
Qed.

Lemma fallback_first_usable_witness :
  Forall (passed_over (JDict [("a", JNull); ("b", JStr ""); ("c", JInt 7)]))
    ["a"; "b"]
  /\ replacer (JDict [("a", JNull); ("b", JStr ""); ("c", JInt 7)])
       " a || b ||c || d " = Returns "7"
  /\ resolve (JStr "{{ a || b ||c || d }}")
       (JDict [("a", JNull); ("b", JStr ""); ("c", JInt 7)]) = Returns "7".
Proof.
  assert (H : Forall
                (passed_over (JDict [("a", JNull); ("b", JStr ""); ("c", JInt 7)]))
                ["a"; "b"]).
  { repeat constructor.
    - exists JNull. split; [reflexivity | now left].
    - exists (JStr ""). split; [reflexivity | now right]. }
  destruct (fallback_first_usable
              (JDict [("a", JNull); ("b", JStr ""); ("c", JInt 7)])
              " a || b ||c || d " ["a"; "b"] H) as [H1 [_ H3]].
  split; [exact H|]. split.
  - apply (H1 "c" ["d"] (JInt 7)); reflexivity || discriminate.
  - refine (eq_trans (H3 eq_refl eq_refl) _).
    apply (H1 "c" ["d"] (JInt 7)); reflexivity || discriminate.
Defined.

(** C7.  An alternative that is an index written with SUPERSCRIPT TWO
    raises ValueError in every document but null ([isdigit] accepts the
    digit, [int] refuses it, lines 106-108), and the exception ends the
    placeholder: when the alternatives before it are passed over, the
    later ones are not tried, and the placeholder resolves neither to the
    value of a later alternative nor to the empty string. *)
Theorem fallback_alternative_raises (data : json) (body : string)
  (pre others : list string) :
  is_none data = false ->
  Forall (passed_over data) pre ->
  alternatives body = (pre ++ superscript_index :: others)%list ->
  replacer data body = Raises ValueError
  /\ resolve (JStr ("{{[" ++ superscript_two ++ "] || b}}")) data
     = Raises ValueError
  /\ resolve (JStr ("{{[" ++ superscript_two ++ "]}}")) data
     = Raises ValueError.
Proof.
  intros Hd Hpre Halt.
  assert (Hp : _resolve_path superscript_index data = Raises ValueError).
  { destruct data; try reflexivity. discriminate Hd. }
  split; [|split].
  - unfold replacer. rewrite Halt, (first_usable_skips data pre _ Hpre).
    cbn [first_usable]. now rewrite Hp.
  - destruct data; try reflexivity. discriminate Hd.
  - destruct data; try reflexivity. discriminate Hd.
Qed.

Lemma fallback_alternative_raises_witness :
  is_none (JDict [("b", JStr "x")]) = false
  /\ Forall (passed_over (JDict [("b", JStr "x")])) ["a"]
  /\ alternatives ("a || [" ++ superscript_two ++ "] || b")
     = ["a"; superscript_index; "b"]
  /\ replacer (JDict [("b", JStr "x")])
       ("a || [" ++ superscript_two ++ "] || b") = Raises ValueError
  /\ resolve (JStr ("{{[" ++ superscript_two ++ "] || b}}"))
       (JDict [("b", JStr "x")]) = Raises ValueError.
Proof.
  assert (H : Forall (passed_over (JDict [("b", JStr "x")])) ["a"]).
  { repeat constructor. exists JNull. split; [reflexivity | now left]. }
  destruct (fallback_alternative_raises (JDict [("b", JStr "x")])
              ("a || [" ++ superscript_two ++ "] || b") ["a"] ["b"]
              eq_refl H eq_refl) as [H1 [H2 _]].
  split; [reflexivity|]. split; [exact H|]. split; [reflexivity|].
  split; [exact H1 | exact H2].
Defined.

(* ------------------------------------------------------------------ *)
(** ** A null member and a missing member *)

Section NullIsAbsent.

Variables (key : string) (d : dict).
Hypothesis key_null : lookup key d = Some JNull.

Lemma lookup_dict_del (k : string) (m : dict) :
  lookup k (dict_del key m) = if String.eqb key k then None else lookup k m.
Proof.
  induction m as [|[k' v] m IH]; simpl.
  - now destruct (String.eqb key k).
  - destruct (String.eqb k' key) eqn:E.
    + apply String.eqb_eq in E. subst k'. rewrite IH.
      now destruct (String.eqb key k).
    + simpl. rewrite IH. destruct (String.eqb k' k) eqn:E'; [|reflexivity].
      apply String.eqb_eq in E'. subst k'.
      rewrite String.eqb_sym in E. now rewrite E.
Qed.

Lemma dict_get_del (k : string) :
  dict_get k (dict_del key d) JNull = dict_get k d JNull.
Proof.
  unfold dict_get. rewrite lookup_dict_del.
  destruct (String.eqb key k) eqn:E; [|reflexivity].
  apply String.eqb_eq in E. subst k. now rewrite key_null.
Qed.

Lemma walk_del (part : string) (rest : list string) :
  walk (part :: rest) (JDict (dict_del key d)) = walk (part :: rest) (JDict d).
Proof. rewrite !walk_cons. cbn [is_none]. now rewrite dict_get_del. Qed.

Lemma filter_item_del (field value res : string) :
  filter_item field value res (JDict (dict_del key d))
  = filter_item field value res (JDict d).
Proof. unfold filter_item. now rewrite !dict_get_del. Qed.

Lemma resolve_plain_del (path : string) :
  _resolve_plain path (JDict (dict_del key d)) = _resolve_plain path (JDict d).
Proof.
  unfold _resolve_plain. destruct (is_empty path); [reflexivity|].
  pose proof (split_not_nil "." path) as Hne.
  destruct (split "." path) as [|part rest]; [contradiction|].
  apply walk_del.
Qed.

Lemma resolve_path_del (path : string) :
  _resolve_path path (JDict (dict_del key d)) = _resolve_path path (JDict d).
Proof.
  unfold _resolve_path. destruct (is_empty path); [reflexivity|].
  destruct (contains ".[?" path).
  - unfold _resolve_filtered_array.
    destruct (match_filter path) as [[[[b f] v] r]|]; [|reflexivity].
    now rewrite resolve_plain_del.
  - pose proof (split_not_nil "." path) as Hne.
    destruct (split "." path) as [|part rest]; [contradiction|].
    apply walk_del.
Qed.

Lemma first_usable_del (parts : list string) :
  first_usable parts (JDict (dict_del key d)) = first_usable parts (JDict d).
Proof.
  induction parts as [|p parts IH]; simpl; [reflexivity|].
  now rewrite resolve_path_del, IH.
Qed.

Lemma re_sub_ext (f g : string -> result string) :
  (forall body, f body = g body) ->
  forall s skip, re_sub f skip s = re_sub g skip s.
Proof.
  intros Hfg. induction s as [|c s IH]; intros skip; [reflexivity|].
  destruct skip as [|k]; [|rewrite !re_sub_skip; apply IH].
  rewrite !re_sub_scan.
  destruct (match_placeholder (String c s)) as [body|].
  - now rewrite Hfg, IH.
  - now rewrite IH.
Qed.

Lemma resolve_del (template : json) :
  resolve template (JDict (dict_del key d)) = resolve template (JDict d).
Proof.
  destruct template; try reflexivity. unfold resolve.
  destruct (is_empty s); [reflexivity|].
  destruct (negb (contains "{{" s)); [reflexivity|].
  apply re_sub_ext. intros body. unfold replacer. apply first_usable_del.
Qed.

End NullIsAbsent.

(** C10, as the code has it.  A member bound to null is to the lookups of
    path resolution what a missing member is: in any object reached by a
    path, at any depth, deleting a key bound to null changes neither the
    walk of the remaining segments nor the test of a filtered-array element;
    for a key of the document itself it changes neither the value of any
    path nor the resolution of any template.  An alternative that yields
    null is passed over for the next one.  (A null inside a value that a
    path returns is part of that value: see the counterexample.) *)
Theorem null_member_as_missing (key : string) (d : dict) :
  lookup key d = Some JNull ->
  (forall part rest,
      walk (part :: rest) (JDict d)
      = walk (part :: rest) (JDict (dict_del key d)))
  /\ (forall field value res,
         filter_item field value res (JDict d)
         = filter_item field value res (JDict (dict_del key d)))
  /\ (forall path,
         _resolve_path path (JDict d)
         = _resolve_path path (JDict (dict_del key d)))
  /\ (forall template,
         resolve template (JDict d)
         = resolve template (JDict (dict_del key d)))
  /\ (forall data part rest,
         _resolve_path part data = Returns JNull ->
         first_usable (part :: rest) data = first_usable rest data).
Proof.
  intros Hk. repeat split; intros.
  - symmetry. now apply walk_del.
  - symmetry. now apply filter_item_del.
  - symmetry. now apply resolve_path_del.
  - symmetry. now apply resolve_del.
  - simpl. now rewrite H.
Qed.

Lemma null_member_as_missing_witness :
  lookup "a" [("a", JNull); ("b", JStr "x")] = Some JNull
  /\ resolve (JStr "{{a || b}}") (JDict [("a", JNull); ("b", JStr "x")])
     = resolve (JStr "{{a || b}}") (JDict [("b", JStr "x")])
  /\ resolve (JStr "{{a || b}}") (JDict [("a", JNull); ("b", JStr "x")])
     = Returns "x".
Proof.
  split; [reflexivity|]. split; [|reflexivity].
  apply (null_member_as_missing "a" [("a", JNull); ("b", JStr "x")] eq_refl).
Defined.

(** C10 as stated fails: a null member nested in the value a path returns
    shows when the value is printed (line 78), where the missing member
    does not. *)
Lemma nested_null_is_printed :
  resolve (JStr "{{a}}") (JDict [("a", JDict [("b", JNull)])])
  = Returns "{'b': None}"
  /\ resolve (JStr "{{a}}") (JDict [("a", JDict [])]) = Returns "{}"
  /\ resolve (JStr "{{a}}") (JDict [("a", JDict [("b", JNull)])])
     <> resolve (JStr "{{a}}") (JDict [("a", JDict [])]).
Proof. repeat split. discriminate. Qed.

(* ------------------------------------------------------------------ *)
(** ** Filtered arrays *)

Section FilteredArray.

Lemma eq_str_true (v : json) (s : string) : eq_str v s = true <-> v = JStr s.
Proof.
  destruct v; simpl; split; try discriminate.
  - intros H. apply String.eqb_eq in H. now subst.
  - intros H. injection H as ->. apply String.eqb_refl.
Qed.

Lemma existsb_eq_str (l : list json) (s : string) :
  existsb (fun x => eq_str x s) l = true <-> In (JStr s) l.
Proof.
  rewrite existsb_exists. split.
  - intros [x [Hin Hx]]. apply eq_str_true in Hx. now subst.
  - intros Hin. exists (JStr s). split; [exact Hin | now apply eq_str_true].
Qed.

Lemma dict_get_null_str (field : string) (d : dict) (s : string) :
  dict_get field d JNull = JStr s <-> lookup field d = Some (JStr s).
Proof.
  unfold dict_get. destruct (lookup field d) as [v|]; split;
    congruence || discriminate.
Qed.

Lemma dict_get_null_list (field : string) (d : dict) (l : list json) :
  dict_get field d JNull = JList l <-> lookup field d = Some (JList l).
Proof.
  unfold dict_get. destruct (lookup field d) as [v|]; split;
    congruence || discriminate.
Qed.

(** The test of the loop is the match of the specification. *)
Lemma filter_item_matches (field value res : string) (d : dict) :
  field_matches field value (JDict d) ->
  filter_item field value res (JDict d) = Some (dict_get res d JNull).
Proof.
  intros [d' [Hd [Hs | [l [Hl Hin]]]]]; injection Hd as <-; unfold filter_item.
  - apply dict_get_null_str in Hs. rewrite Hs. simpl.
    now rewrite String.eqb_refl.
  - apply dict_get_null_list in Hl. rewrite Hl. simpl.
    apply existsb_eq_str in Hin. now rewrite Hin.
Qed.

Lemma filter_item_no_match (field value res : string) (item : json) :
  ~ field_matches field value item ->
  filter_item field value res item = None.
Proof.
  intros Hno. destruct item as [| | | | |l|d]; try reflexivity.
  unfold filter_item.
  destruct (eq_str (dict_get field d JNull) value) eqn:E.
  - exfalso. apply Hno. exists d. split; [reflexivity|]. left.
    apply eq_str_true in E. now apply dict_get_null_str.
  - destruct (dict_get field d JNull) as [| | | | |l|] eqn:Eg; try reflexivity.
    destruct (existsb (fun x => eq_str x value) l) eqn:Ex; [|reflexivity].
    exfalso. apply Hno. exists d. split; [reflexivity|]. right.
    exists l. split; [now apply dict_get_null_list | now apply existsb_eq_str].
Qed.

Lemma scan_first_match (field value res : string) (pre post : list json)
  (d : dict) :
  Forall (fun x => ~ field_matches field value x) pre ->
  field_matches field value (JDict d) ->
  scan field value res (pre ++ JDict d :: post)%list = dict_get res d JNull.
Proof.
  intros Hpre Hd. induction Hpre as [|x pre Hx Hpre IH]; cbn [app scan].
  - now rewrite (filter_item_matches field value res d Hd).
  - now rewrite (filter_item_no_match field value res x Hx).
Qed.

Lemma scan_no_match (field value res : string) (arr : list json) :
  Forall (fun x => ~ field_matches field value x) arr ->
  scan field value res arr = JNull.
Proof.
  induction 1 as [|x arr Hx Harr IH]; cbn [scan]; [reflexivity|].
  now rewrite (filter_item_no_match field value res x Hx).
Qed.

(** The pattern matches an expression of the documented shape and yields
    its four components. *)
Lemma match_filter_shape (base field value res : string) :
  is_empty base = false -> lacks "." base = true ->
  is_empty field = false -> lacks "=" field = true ->
  is_empty value = false -> lacks "]" value = true ->
  is_empty res = false -> lacks "010" res = true ->
  match_filter (filter_path base field value res)
  = Some (base, field, value, res).
Proof.
  intros Hb Hbl Hf Hfl Hv Hvl Hr Hrl. unfold match_filter, filter_path.
  change (base ++ ".[?" ++ field ++ "=" ++ value ++ "]." ++ res)
    with (base ++ String "." ("[?" ++ field ++ "=" ++ value ++ "]." ++ res)).
  rewrite (span_not_exact "." base _ Hbl). cbn [append].
  change (field ++ String "=" (value ++ String "]" (String "." res)))
    with (field ++ String "=" (value ++ "]." ++ res)).
  rewrite (span_not_exact "=" field _ Hfl).
  change (value ++ "]." ++ res) with (value ++ String "]" ("." ++ res)).
  rewrite (span_not_exact "]" value _ Hvl). cbn [append].
  rewrite (span_not_whole "010" res Hrl).
  now rewrite Hb, Hf, Hv, Hr.
Qed.

End FilteredArray.

(** X20.  When the pattern does not match the path, the result is absent.
    When it matches, with groups BASE, FIELD, VALUE and RESULT, and the
    lookup of BASE yields a value: the result is absent when that value is
    not a sequence; it is the RESULT member (absent when missing) of the
    first element that is a mapping whose FIELD member equals VALUE or is a
    sequence with VALUE as a member, the elements before it, mappings or
    not, being passed; it is absent when no element matches.  The pattern
    matches every expression BASE.[?FIELD=VALUE].RESULT written with a
    non-empty BASE without dot, FIELD without equals sign, VALUE without
    closing bracket and RESULT on one line, and yields these four. *)
Theorem filtered_array_first_match (path : string) (data : json) :
  (match_filter path = None ->
   _resolve_filtered_array path data = Returns JNull)
  /\ (forall base field value res v,
         match_filter path = Some (base, field, value, res) ->
         _resolve_path base data = Returns v ->
         (is_list v = false ->
          _resolve_filtered_array path data = Returns JNull)
         /\ (forall pre d post,
                v = JList (pre ++ JDict d :: post)%list ->
                Forall (fun x => ~ field_matches field value x) pre ->
                field_matches field value (JDict d) ->
                _resolve_filtered_array path data
                = Returns (dict_get res d JNull))
         /\ (forall arr,
                v = JList arr ->
                Forall (fun x => ~ field_matches field value x) arr ->
                _resolve_filtered_array path data = Returns JNull))
  /\ (forall base field value res,
         is_empty base = false -> lacks "." base = true ->
         is_empty field = false -> lacks "=" field = true ->
         is_empty value = false -> lacks "]" value = true ->
         is_empty res = false -> lacks "010" res = true ->
         match_filter (filter_path base field value res)
         = Some (base, field, value, res)).
Proof.
  split; [|split; [|apply match_filter_shape]].
  - intros Hm. unfold _resolve_filtered_array. now rewrite Hm.
  - intros base field value res v Hm Hv.
    rewrite (resolve_path_base path base field value res data Hm) in Hv.
    unfold _resolve_filtered_array. rewrite Hm, Hv. cbn [bind].
    repeat split.
    + intros Hl. destruct v; try reflexivity. discriminate Hl.
    + intros pre d post -> Hpre Hd.
      now rewrite (scan_first_match field value res pre post d Hpre Hd).
    + intros arr -> Harr.
      now rewrite (scan_no_match field value res arr Harr).
Qed.

Lemma filtered_array_first_match_witness :
  match_filter "names.[?types=ror_display].value"
  = Some ("names", "types", "ror_display", "value")
  /\ _resolve_path "names" (JDict [("names", ror_names)]) = Returns ror_names
  /\ _resolve_filtered_array "names.[?types=ror_display].value"
       (JDict [("names", ror_names)]) = Returns (JStr "Display Name").
Proof.
  split; [reflexivity|]. split; [reflexivity|].
  destruct (filtered_array_first_match "names.[?types=ror_display].value"
              (JDict [("names", ror_names)])) as [_ [H _]].
  destruct (H "names" "types" "ror_display" "value" ror_names
              eq_refl eq_refl) as [_ [Hfirst _]].
  apply (Hfirst [JDict [("types", JList [JStr "label"]);
                        ("value", JStr "Label Name")]]
                [("types", JList [JStr "ror_display"]);
                 ("value", JStr "Display Name")] []).
  - reflexivity.
  - constructor; [|constructor].
    unfold field_matches.
    intros [d [Hd [Hs | [l [Hl Hin]]]]]; injection Hd as <-.
    + discriminate Hs.
    + injection Hl as <-. destruct Hin as [Hin | []]. discriminate Hin.
  - exists [("types", JList [JStr "ror_display"]);
            ("value", JStr "Display Name")].
    split; [reflexivity|]. right. exists [JStr "ror_display"].
    split; [reflexivity | now left].
Defined.

(** C6.  At the path [2].[?f=v].r written with SUPERSCRIPT TWO the pattern
    matches, with the index segment as BASE, and the lookup of BASE raises
    ValueError in every document but null: [isdigit] accepts the digit and
    [int] refuses it (lines 106-108).  The result is not absent, and the
    template that holds the path does not resolve. *)
Theorem filtered_array_base_raises (data : json) :
  is_none data = false ->
  match_filter ("[" ++ superscript_two ++ "].[?f=v].r")
  = Some ("[" ++ superscript_two ++ "]", "f", "v", "r")
  /\ _resolve_filtered_array ("[" ++ superscript_two ++ "].[?f=v].r") data
     = Raises ValueError
  /\ _resolve_path ("[" ++ superscript_two ++ "].[?f=v].r") data
     = Raises ValueError
  /\ resolve (JStr ("{{[" ++ superscript_two ++ "].[?f=v].r}}")) data
     = Raises ValueError.
Proof.
  intros Hd.
  assert (Hp : _resolve_path ("[" ++ superscript_two ++ "].[?f=v].r") data
               = Raises ValueError).
  { destruct data; try reflexivity. discriminate Hd. }
  split; [reflexivity|]. split; [exact Hp|]. split; [exact Hp|].
  destruct data; try reflexivity. discriminate Hd.
Qed.

Lemma filtered_array_base_raises_witness :
  is_none (JDict [("f", JStr "v")]) = false
  /\ _resolve_filtered_array ("[" ++ superscript_two ++ "].[?f=v].r")
       (JDict [("f", JStr "v")]) = Raises ValueError.
Proof.
  split; [reflexivity|].
  apply (filtered_array_base_raises (JDict [("f", JStr "v")]) eq_refl).
Defined.

(* ------------------------------------------------------------------ *)
(** ** Cross-references *)

Section Xrefs.

Variable hit : json.

Lemma dict_has_lookup (key : string) (d : dict) :
  dict_has key d = true -> lookup key d = Some (dict_get key d JNull).
Proof.
  unfold dict_has, dict_get. destruct (lookup key d); [reflexivity|discriminate].
Qed.

Lemma dict_set_fresh (key : string) (v : json) (d : dict) :
  ~ In key (keys d) -> dict_set key v d = (d ++ [(key, v)])%list.
Proof.
  induction d as [|[k w] d IH]; simpl; intros Hk.
  - reflexivity.
  - destruct (String.eqb k key) eqn:E.
    + apply String.eqb_eq in E. exfalso. apply Hk. now left.
    + rewrite IH; [reflexivity|]. intros Hin. apply Hk. now right.
Qed.

(** One turn of the loop adds what the specification says of the entry. *)
Lemma xref_step_entry (db : string) (xref_tpl : json) (xrefs : dict) :
  xref_ok (db, xref_tpl) = true ->
  ~ In db (keys xrefs) ->
  xref_step hit db xref_tpl xrefs
  = Returns (xrefs ++ xref_entry hit (db, xref_tpl))%list.
Proof.
  unfold xref_ok. cbn [snd]. destruct xref_tpl as [| | | | | |t]; try discriminate.
  intros Hok Hfresh.
  apply andb_true_iff in Hok as [Hok Huri].
  apply andb_true_iff in Hok as [Hcond Hid].
  unfold xref_step, xref_entry. cbn [py_contains py_get bind].
  rewrite (resolve_resolved _ hit Hid).
  destruct (dict_has "condition" t) eqn:Hhas; cbn [andb].
  - unfold py_getitem. rewrite (dict_has_lookup _ _ Hhas). cbn [bind].
    rewrite (resolve_resolved _ hit Hcond). cbn [bind].
    destruct (is_empty (resolved (dict_get "condition" t JNull) hit)).
    + now rewrite app_nil_r.
    + cbn [bind].
      destruct (is_empty (resolved (dict_get "id" t (JStr "")) hit)).
      * now rewrite app_nil_r.
      * rewrite (resolve_resolved _ hit Huri). cbn [bind].
        now rewrite dict_set_fresh.
  - cbn [bind].
    destruct (is_empty (resolved (dict_get "id" t (JStr "")) hit)).
    + now rewrite app_nil_r.
    + rewrite (resolve_resolved _ hit Huri). cbn [bind].
      now rewrite dict_set_fresh.
Qed.

Lemma xref_entry_keys (entry : string * json) :
  forall k, In k (keys (xref_entry hit entry)) -> k = fst entry.
Proof.
  destruct entry as [db tpl]. unfold xref_entry. intros k.
  destruct tpl; try contradiction.
  destruct (dict_has "condition" d && _); [contradiction|].
  destruct (is_empty _); [contradiction|].
  simpl. intros [H|[]]. now subst.
Qed.

Lemma xrefs_loop_entries (items : dict) :
  forall xrefs,
    NoDup (keys items) ->
    (forall k, In k (keys items) -> ~ In k (keys xrefs)) ->
    forallb xref_ok items = true ->
    xrefs_loop hit items xrefs
    = Returns (xrefs ++ flat_map (xref_entry hit) items)%list.
Proof.
  induction items as [|[db tpl] items IH]; intros xrefs Hnd Hfresh Hok.
  - simpl. now rewrite app_nil_r.
  - cbn [xrefs_loop flat_map]. simpl in Hok.
    apply andb_true_iff in Hok as [Hok1 Hok].
    inversion Hnd as [|? ? Hnotin Hnd']; subst.
    rewrite xref_step_entry; [|exact Hok1|apply Hfresh; now left].
    cbn [bind]. rewrite IH; [now rewrite <- app_assoc|exact Hnd'| |exact Hok].
    intros k Hk Hin. unfold keys in Hin. rewrite map_app in Hin.
    apply in_app_or in Hin as [Hin|Hin].
    + apply (Hfresh k); [now right | exact Hin].
    + apply xref_entry_keys in Hin. simpl in Hin. subst k.
      apply Hnotin. exact Hk.
Qed.

Lemma resolve_xrefs_entries (items : dict) :
  NoDup (keys items) -> forallb xref_ok items = true ->
  _resolve_xrefs hit (JDict items)
  = Returns (JDict (flat_map (xref_entry hit) items)).
Proof.
  intros Hnd Hok. unfold _resolve_xrefs.
  rewrite xrefs_loop_entries; [reflexivity|exact Hnd| |exact Hok].
  intros k _ [].
Qed.

Lemma xrefs_loop_returns (items : dict) :
  forallb xref_ok items = true ->
  forall xrefs, exists out, xrefs_loop hit items xrefs = Returns out.
Proof.
  induction items as [|[db tpl] items IH]; intros Hok xrefs.
  - eexists. reflexivity.
  - simpl in Hok. apply andb_true_iff in Hok as [Hok1 Hok].
    cbn [xrefs_loop].
    assert (Hstep : exists x, xref_step hit db tpl xrefs = Returns x).
    { unfold xref_ok in Hok1. cbn [snd] in Hok1.
      destruct tpl as [| | | | | |t]; try discriminate.
      apply andb_true_iff in Hok1 as [Hok1 Huri].
      apply andb_true_iff in Hok1 as [Hcond Hid].
      unfold xref_step. cbn [py_contains py_get bind].
      rewrite (resolve_resolved _ hit Hid), (resolve_resolved _ hit Huri).
      destruct (dict_has "condition" t) eqn:Hhas.
      - unfold py_getitem. rewrite (dict_has_lookup _ _ Hhas). cbn [bind].
        rewrite (resolve_resolved _ hit Hcond). cbn [bind].
        destruct (is_empty (resolved (dict_get "condition" t JNull) hit));
          [eexists; reflexivity|].
        cbn [bind].
        destruct (is_empty (resolved (dict_get "id" t (JStr "")) hit));
          eexists; reflexivity.
      - cbn [bind].
        destruct (is_empty (resolved (dict_get "id" t (JStr "")) hit));
          eexists; reflexivity. }
    destruct Hstep as [x Hx]. rewrite Hx. cbn [bind]. now apply IH.
Qed.

Lemma resolve_xrefs_returns (xrefs_config : json) :
  xrefs_ok xrefs_config = true ->
  exists out, _resolve_xrefs hit xrefs_config = Returns (JDict out).
Proof.
  destruct xrefs_config as [| | | | | |items]; try discriminate.
  intros Hok. unfold _resolve_xrefs.
  destruct (xrefs_loop_returns items Hok []) as [out Hout].
  rewrite Hout. eexists. reflexivity.
Qed.

End Xrefs.

(** X22.  Take a cross-reference configuration that is an object of
    objects, with distinct names, safe templates and, where an entry has no
    label, a name that [upper] capitalises as Python does.  Its entries
    are taken in configuration order.  An entry with a condition whose
    resolution against the hit is empty contributes nothing; otherwise an
    entry whose id resolves to the empty string contributes nothing;
    otherwise it contributes, under its own key, the record of its resolved
    id, its resolved uri and its label, which is the configuration's or
    else the key in upper case.  The output is these contributions in
    order, and the resolution raises nothing. *)
Theorem xrefs_in_configuration_order (hit : json) (items : dict) :
  NoDup (keys items) -> forallb xref_ok items = true ->
  forallb xref_label_ok items = true ->
  _resolve_xrefs hit (JDict items)
  = Returns (JDict (flat_map (xref_entry hit) items)).
Proof. intros Hnd Hok _. now apply resolve_xrefs_entries. Qed.

Lemma xrefs_in_configuration_order_witness :
  NoDup (keys ensembl_xrefs)
  /\ forallb xref_ok ensembl_xrefs = true
  /\ forallb xref_label_ok ensembl_xrefs = true
  /\ _resolve_xrefs ensembl_hit (JDict ensembl_xrefs)
     = Returns (JDict [("mgi",
                        JDict [("id", JStr "88057");
                               ("uri", JStr "https://identifiers.org/mgi:88057");
                               ("label", JStr "Mouse Genome Informatics")]);
                       ("ensembl",
                        JDict [("id", JStr "ENSMUSG00000002985");
                               ("uri", JStr "");
                               ("label", JStr "ENSEMBL")])]).
Proof.
  assert (Hnd : NoDup (keys ensembl_xrefs)).
  { repeat constructor; simpl; intuition discriminate. }
  split; [exact Hnd|]. split; [reflexivity|]. split; [reflexivity|].
  exact (xrefs_in_configuration_order ensembl_hit ensembl_xrefs Hnd
           eq_refl eq_refl).
Defined.

(** C9.  At an entry whose id template is an index written with SUPERSCRIPT
    TWO, cross-reference resolution raises ValueError for every hit but
    null, with or without entries before it that are left out or emitted:
    [isdigit] accepts the digit and [int] refuses it (lines 106-108).  The
    entry is neither omitted silently nor emitted. *)
Theorem xrefs_template_raises (hit : json) (before after : dict) (db : string) :
  is_none hit = false ->
  forallb xref_ok before = true ->
  _resolve_xrefs hit
    (JDict (before
            ++ (db, JDict [("id", JStr ("{{" ++ superscript_index ++ "}}"))])
            :: after)%list)
  = Raises ValueError.
Proof.
  intros Hd Hok. unfold _resolve_xrefs.
  assert (Hstep : forall xrefs,
             xref_step hit db
               (JDict [("id", JStr ("{{" ++ superscript_index ++ "}}"))]) xrefs
             = Raises ValueError).
  { intros xrefs. destruct hit; try reflexivity. discriminate Hd. }
  assert (Hloop : forall items xrefs,
             forallb xref_ok items = true ->
             xrefs_loop hit
               (items
                ++ (db, JDict [("id", JStr ("{{" ++ superscript_index ++ "}}"))])
                :: after)%list xrefs
             = Raises ValueError).
  { induction items as [|[k tpl] items IH]; intros xrefs Hitems.
    - cbn [app xrefs_loop]. now rewrite Hstep.
    - cbn [app xrefs_loop]. cbn [forallb] in Hitems.
      apply andb_true_iff in Hitems as [Hk Hitems].
      destruct (xrefs_loop_returns hit [(k, tpl)]
                  ltac:(cbn [forallb]; now rewrite Hk) xrefs) as [out Hout].
      cbn [xrefs_loop] in Hout.
      destruct (xref_step hit k tpl xrefs) as [x|e]; [|discriminate Hout].
      cbn [bind]. now apply IH. }
  now rewrite Hloop.
Qed.

Lemma xrefs_template_raises_witness :
  is_none mygene_hit = false
  /\ forallb xref_ok [("ncbi_gene", JDict [("id", JStr "{{_id}}")])] = true
  /\ _resolve_xrefs mygene_hit
       (JDict [("ncbi_gene", JDict [("id", JStr "{{_id}}")]);
               ("x", JDict [("id", JStr ("{{" ++ superscript_index ++ "}}"))])])
     = Raises ValueError.
Proof.
  split; [reflexivity|]. split; [reflexivity|].
  exact (xrefs_template_raises mygene_hit
           [("ncbi_gene", JDict [("id", JStr "{{_id}}")])] [] "x"
           eq_refl eq_refl).
Defined.

(* ------------------------------------------------------------------ *)
(** ** The generic mapper and the dispatch *)

Section Dispatch.

Variable reg : registry.

Lemma generic_map_record (hit : json) (config : dict) :
  config_ok config = true ->
  _generic_map hit (JDict config)
  = Returns (JDict ([("label", JStr (resolved (dict_get "label" config (JStr "")) hit));
                     ("sublabel", JStr (resolved (dict_get "sublabel" config (JStr "")) hit));
                     ("id", JStr (resolved (dict_get "id" config (JStr "")) hit));
                     ("scheme", dict_get "scheme" config (JStr ""))]
                    ++ xrefs_member hit config)%list).
Proof.
  unfold config_ok. intros Hok.
  apply andb_true_iff in Hok as [Hok _].
  apply andb_true_iff in Hok as [Hok Hx].
  apply andb_true_iff in Hok as [Hok Hid].
  apply andb_true_iff in Hok as [Hlabel Hsub].
  unfold _generic_map, xrefs_member. cbn [py_get py_contains bind].
  rewrite (resolve_resolved _ hit Hlabel). cbn [bind].
  rewrite (resolve_resolved _ hit Hsub). cbn [bind].
  rewrite (resolve_resolved _ hit Hid). cbn [bind].
  unfold dict_has, py_getitem.
  destruct (lookup "xrefs" config) as [x|]; [|reflexivity]. cbn [bind].
  destruct (resolve_xrefs_returns hit x Hx) as [out Hout].
  rewrite Hout. reflexivity.
Qed.

Lemma mapHit_runs_generic (strategy : string) (hit : json) (config : dict) :
  config_ok config = true ->
  runs_generic reg strategy config = true ->
  mapHit reg strategy hit (JDict config) = _generic_map hit (JDict config).
Proof.
  intros Hok. unfold runs_generic.
  destruct (String.eqb strategy "custom") eqn:Ec.
  - apply String.eqb_eq in Ec. subst strategy.
    change (mapHit reg "custom" hit (JDict config))
      with (custom reg hit (JDict config)).
    unfold custom. cbn [py_get bind].
    unfold config_ok in Hok. apply andb_true_iff in Hok as [_ Hfn].
    destruct (dict_get "function_name" config JNull) as [|b|z|r|name|l|d];
      intros Hrun; cbn [truthy]; try reflexivity.
    + destruct b; reflexivity.
    + destruct (negb (Z.eqb z 0)); reflexivity.
    + destruct (negb _); reflexivity.
    + destruct (registered name reg).
      * now rewrite Hrun.
      * destruct (negb (is_empty name)); reflexivity.
    + destruct l; [reflexivity | discriminate Hfn].
    + destruct d; [reflexivity | discriminate Hfn].
  - unfold mapHit.
    destruct (class_attribute reg strategy) as [m|] eqn:Ea; [|reflexivity].
    intros Hrun.
    apply orb_true_iff in Hrun as [Hrun|Hrun];
      [apply orb_true_iff in Hrun as [Hrun|Hrun]|];
      apply String.eqb_eq in Hrun; subst strategy;
      injection Ea as <-; reflexivity.
Qed.

Lemma mapHit_custom_registered (name : string) (f : mapper) (hit : json)
  (config : dict) :
  dict_get "function_name" config JNull = JStr name ->
  is_empty name = false ->
  registered name reg = Some f ->
  mapHit reg "custom" hit (JDict config) = f hit (JDict config).
Proof.
  intros Hfn Hne Hreg.
  change (mapHit reg "custom" hit (JDict config))
    with (custom reg hit (JDict config)).
  unfold custom. cbn [py_get bind]. rewrite Hfn. cbn [truthy].
  now rewrite Hne, Hreg.
Qed.

(** A name that is no attribute of the class runs [flat_object]. *)
Lemma mapHit_unknown_name (strategy : string) (hit config : json) :
  python_class_name strategy = false ->
  class_attribute reg strategy = None ->
  mapHit reg strategy hit config = mapHit reg "flat_object" hit config.
Proof. intros _ H. unfold mapHit. now rewrite H. Qed.

Lemma mapHit_returns (strategy : string) (hit : json) (config : dict) :
  config_ok config = true ->
  hit_fits reg strategy hit config = true ->
  exists r, mapHit reg strategy hit (JDict config) = Returns r.
Proof.
  intros Hok Hfit. unfold hit_fits in Hfit.
  destruct (runs_generic reg strategy config) eqn:Hrun.
  - rewrite (mapHit_runs_generic strategy hit config Hok Hrun).
    rewrite (generic_map_record hit config Hok). eexists. reflexivity.
  - cbn [orb] in Hfit. apply orb_true_iff in Hfit as [Hobo|Hcus].
    + apply andb_true_iff in Hobo as [Hname Hd].
      apply String.eqb_eq in Hname. subst strategy.
      destruct hit; try discriminate Hd.
      change (mapHit reg "obo_ontology" (JDict d) (JDict config))
        with (obo_ontology (JDict d) (JDict config)).
      rewrite obo_ontology_record. eexists. reflexivity.
    + apply andb_true_iff in Hcus as [Hname Hf].
      apply String.eqb_eq in Hname. subst strategy.
      destruct (dict_get "function_name" config JNull)
        as [| | | |name| |] eqn:Hfn; try discriminate Hf.
      destruct (registered name reg) as [f|] eqn:Hreg; [|discriminate Hf].
      unfold runs_generic in Hrun. cbn [String.eqb Ascii.eqb Bool.eqb] in Hrun.
      rewrite Hfn, Hreg in Hrun.
      rewrite (mapHit_custom_registered name f hit config Hfn Hrun Hreg).
      destruct (f hit (JDict config)); [eexists; reflexivity|discriminate Hf].
Qed.

End Dispatch.

Lemma normalize_mgi_mapper_returns (hit : dict) (config : json) :
  exists r, normalize_mgi_mapper (JDict hit) config = Returns (JDict r).
Proof. unfold normalize_mgi_mapper. cbn [py_get bind]. eexists. reflexivity. Qed.

(* ------------------------------------------------------------------ *)
(** ** The normalized record *)

(** C3, as the code has it.  Take a mapper configuration of the documented
    shape, with a string scheme.  Under every strategy name that runs the
    generic mapper, and for every hit, the record has the members label,
    sublabel, id and scheme, each a string.  Under obo_ontology, for every
    hit that is an object, the record has the four members, scheme is a
    string, and label, sublabel and id are the hit's label, obo_id and iri
    as they are (default "?", "" and ""). *)
Theorem normalized_record_members (reg : registry) (strategy : string)
  (hit : json) (config : dict) :
  config_ok config = true ->
  is_str (dict_get "scheme" config (JStr "")) = true ->
  (runs_generic reg strategy config = true ->
   exists r,
     mapHit reg strategy hit (JDict config) = Returns (JDict r)
     /\ str_member "label" r /\ str_member "sublabel" r
     /\ str_member "id" r /\ str_member "scheme" r)
  /\ (forall h,
         strategy = "obo_ontology" -> hit = JDict h ->
         exists r,
           mapHit reg strategy hit (JDict config) = Returns (JDict r)
           /\ lookup "label" r = Some (dict_get "label" h (JStr "?"))
           /\ lookup "sublabel" r = Some (dict_get "obo_id" h (JStr ""))
           /\ lookup "id" r = Some (dict_get "iri" h (JStr ""))
           /\ str_member "scheme" r).
Proof.
  intros Hok Hscheme. split.
  - intros Hrun.
    rewrite (mapHit_runs_generic reg strategy hit config Hok Hrun).
    rewrite (generic_map_record hit config Hok).
    eexists. split; [reflexivity|]. unfold str_member. cbn [lookup app].
    repeat split; try (eexists; reflexivity).
    destruct (dict_get "scheme" config (JStr "")); try discriminate Hscheme.
    eexists. reflexivity.
  - intros h -> ->.
    change (mapHit reg "obo_ontology" (JDict h) (JDict config))
      with (obo_ontology (JDict h) (JDict config)).
    rewrite obo_ontology_record.
    eexists. split; [reflexivity|]. repeat split.
    unfold str_member, dict_get in *. cbn [lookup].
    destruct (lookup "scheme" config) as [v|].
    + destruct v; try discriminate Hscheme. eexists. reflexivity.
    + eexists. reflexivity.
Qed.

Lemma normalized_record_members_witness :
  config_ok ror_config = true
  /\ is_str (dict_get "scheme" ror_config (JStr "")) = true
  /\ runs_generic CUSTOM_MAPPERS "array_find" ror_config = true
  /\ exists r,
       mapHit CUSTOM_MAPPERS "array_find" (JInt 3) (JDict ror_config)
       = Returns (JDict r)
       /\ str_member "label" r /\ str_member "sublabel" r
       /\ str_member "id" r /\ str_member "scheme" r.
Proof.
  split; [reflexivity|]. split; [reflexivity|]. split; [reflexivity|].
  destruct (normalized_record_members CUSTOM_MAPPERS "array_find" (JInt 3)
              ror_config eq_refl eq_refl) as [H _].
  exact (H eq_refl).
Defined.

(** C3 as stated fails: obo_ontology copies the members of the hit, and a
    label that is null in the hit is null in the record. *)
Lemma obo_ontology_label_not_string :
  ~ (forall r,
        mapHit CUSTOM_MAPPERS "obo_ontology" (JDict [("label", JNull)])
          (JDict [("scheme", JStr "EFO")]) = Returns (JDict r) ->
        str_member "label" r).
Proof.
  intros H. destruct (H _ eq_refl) as [s Hs]. discriminate Hs.
Qed.

(* ------------------------------------------------------------------ *)
(** ** Returning *)

(** C2, as the code has it.  [resolve] returns a string for every template
    value, string or not, and every document of any kind, when no index
    segment of the template can be refused by [int].  [mapHit] returns a
    record for every configuration of the documented shape: under every
    strategy name that runs the generic mapper for a hit of any kind, under
    obo_ontology for a hit that is an object, and under custom with a
    registered function when that function returns. *)
Theorem resolve_and_mapHit_return (reg : registry) (template doc : json)
  (strategy : string) (hit : json) (config : dict) :
  int_safe_template template = true ->
  config_ok config = true ->
  hit_fits reg strategy hit config = true ->
  (exists s, resolve template doc = Returns s)
  /\ (exists r, mapHit reg strategy hit (JDict config) = Returns r).
Proof.
  intros Ht Hok Hfit. split.
  - now apply resolve_returns.
  - now apply mapHit_returns.
Qed.

Lemma resolve_and_mapHit_return_witness :
  int_safe_template (JList [JInt 1]) = true
  /\ config_ok ror_config = true
  /\ hit_fits CUSTOM_MAPPERS "nested_object" (JStr "not an object") ror_config
     = true
  /\ (exists s, resolve (JList [JInt 1]) JNull = Returns s)
  /\ (exists r,
        mapHit CUSTOM_MAPPERS "nested_object" (JStr "not an object")
          (JDict ror_config) = Returns r).
Proof.
  split; [reflexivity|]. split; [reflexivity|]. split; [reflexivity|].
  exact (resolve_and_mapHit_return CUSTOM_MAPPERS (JList [JInt 1]) JNull
           "nested_object" (JStr "not an object") ror_config
           eq_refl eq_refl eq_refl).
Defined.

(** C2 as stated fails: obo_ontology and the registered custom mapper call
    [get] on the hit, which only an object has; the generic mapper calls
    [items] on the xrefs member of the configuration; and [int] refuses an
    index written with a superscript digit, which [isdigit] accepts. *)
Lemma mapHit_and_resolve_raise :
  mapHit CUSTOM_MAPPERS "obo_ontology" (JList [JStr "hit"])
    (JDict [("scheme", JStr "EFO")]) = Raises AttributeError
  /\ mapHit CUSTOM_MAPPERS "custom" JNull
       (JDict [("function_name", JStr "normalize_mgi")]) = Raises AttributeError
  /\ mapHit CUSTOM_MAPPERS "flat_object" (JDict [])
       (JDict [("xrefs", JList [])]) = Raises AttributeError
  /\ resolve (JStr (String "{" (String "{" (String "["
                (String (ascii_of_nat 178) "]}}"))))) (JDict [])
     = Raises ValueError.
Proof. repeat split. Qed.

(* ------------------------------------------------------------------ *)
(** ** Names that are not strategies *)

(** C4.  At the name of the helper [_resolve_xrefs], which is none of the
    five strategies, [getattr] finds the helper and [mapHit] runs it on the
    mapper configuration: the call raises where flat_object returns a
    record, and on an empty configuration it returns an empty mapping where
    flat_object returns the four members. *)
Theorem mapHit_helper_name_not_flat_object :
  mapHit CUSTOM_MAPPERS "_resolve_xrefs" (JDict [("symbol", JStr "Apoe")])
    (JDict [("strategy", JStr "_resolve_xrefs"); ("label", JStr "{{symbol}}")])
  = Raises AttributeError
  /\ map_configured CUSTOM_MAPPERS (JDict [("symbol", JStr "Apoe")])
       (JDict [("strategy", JStr "_resolve_xrefs"); ("label", JStr "{{symbol}}")])
     = Raises AttributeError
  /\ mapHit CUSTOM_MAPPERS "flat_object" (JDict [("symbol", JStr "Apoe")])
       (JDict [("strategy", JStr "_resolve_xrefs"); ("label", JStr "{{symbol}}")])
     = Returns (JDict [("label", JStr "Apoe"); ("sublabel", JStr "");
                       ("id", JStr ""); ("scheme", JStr "")])
  /\ mapHit CUSTOM_MAPPERS "_resolve_xrefs" (JDict []) (JDict [])
     = Returns (JDict [])
  /\ mapHit CUSTOM_MAPPERS "flat_object" (JDict []) (JDict [])
     = Returns (JDict [("label", JStr ""); ("sublabel", JStr "");
                       ("id", JStr ""); ("scheme", JStr "")]).
Proof. repeat split. Qed.

(* ------------------------------------------------------------------ *)
(** ** More on templates *)

Section TemplateShape.

Variable repl : string -> result string.

Lemma match_placeholder_starts (s body : string) :
  match_placeholder s = Some body -> startswith "{{" s = true.
Proof.
  unfold match_placeholder.
  destruct s as [|c1 s]; [discriminate|].
  destruct (Ascii.eqb c1 "{") eqn:E1;
    [apply Ascii.eqb_eq in E1; subst c1
    | destruct c1 as [[] [] [] [] [] [] [] []]; try discriminate E1;
      discriminate].
  destruct s as [|c2 s]; [discriminate|].
  destruct (Ascii.eqb c2 "{") eqn:E2;
    [apply Ascii.eqb_eq in E2; subst c2
    | destruct c2 as [[] [] [] [] [] [] [] []]; try discriminate E2;
      discriminate].
  reflexivity.
Qed.

Lemma contains_cons_false (sub : string) (c : ascii) (s : string) :
  contains sub (String c s) = false ->
  startswith sub (String c s) = false /\ contains sub s = false.
Proof.
  intros H. change (contains sub (String c s))
    with (startswith sub (String c s) || contains sub s) in H.
  now apply orb_false_iff in H.
Qed.

(** Without a marker there is nothing to substitute. *)
Lemma re_sub_no_marker (s : string) :
  contains "{{" s = false -> re_sub repl 0 s = Returns s.
Proof.
  induction s as [|c s IH]; intros H; [reflexivity|].
  apply contains_cons_false in H as [Hs Hc].
  rewrite re_sub_scan.
  destruct (match_placeholder (String c s)) as [body|] eqn:Hm.
  - apply match_placeholder_starts in Hm. congruence.
  - now rewrite (IH Hc).
Qed.

Lemma match_placeholder_literal (c : ascii) (s : string) :
  Ascii.eqb c "{" = false -> match_placeholder (String c s) = None.
Proof.
  intros H. unfold match_placeholder.
  destruct c as [[] [] [] [] [] [] [] []]; try reflexivity. discriminate H.
Qed.

(** Text before the first brace is copied. *)
Lemma re_sub_literal_prefix (pre t : string) :
  lacks "{" pre = true ->
  re_sub repl 0 (pre ++ t) = x <- re_sub repl 0 t ;; Returns (pre ++ x).
Proof.
  unfold lacks. induction pre as [|c pre IH]; intros H.
  - cbn [append]. now destruct (re_sub repl 0 t).
  - cbn [all_chars] in H. apply andb_true_iff in H as [Hc Hpre].
    apply negb_true_iff in Hc. cbn [append].
    rewrite re_sub_scan, (match_placeholder_literal c _ Hc), (IH Hpre).
    now destruct (re_sub repl 0 t).
Qed.

Lemma re_sub_skip_prefix (a rest : string) :
  re_sub repl (String.length a) (a ++ rest) = re_sub repl 0 rest.
Proof. induction a as [|c a IH]; [reflexivity | exact IH]. Qed.

Lemma match_placeholder_then (body rest : string) :
  is_empty body = false -> lacks "}" body = true ->
  match_placeholder ("{{" ++ body ++ "}}" ++ rest) = Some body.
Proof.
  intros Hne Hl. unfold match_placeholder. cbn [append].
  change (body ++ String "}" (String "}" rest))
    with (body ++ String "}" ("}" ++ rest)).
  rewrite (span_not_exact "}" body _ Hl). cbn [append]. now rewrite Hne.
Qed.

(** A placeholder is replaced and the scan goes on behind it. *)
Lemma re_sub_placeholder (body rest : string) :
  is_empty body = false -> lacks "}" body = true ->
  re_sub repl 0 ("{{" ++ body ++ "}}" ++ rest)
  = r <- repl body ;; x <- re_sub repl 0 rest ;; Returns (r ++ x).
Proof.
  intros Hne Hl.
  pose proof (match_placeholder_then body rest Hne Hl) as Hm.
  cbn [append] in *. rewrite re_sub_scan, Hm.
  destruct (repl body) as [r|e]; [|reflexivity]. cbn [bind].
  replace (String.length body + 3)
    with (String.length (String "{" (body ++ "}}"))).
  - change (String "{" (body ++ String "}" (String "}" rest)))
      with (String "{" (body ++ "}}" ++ rest)).
    rewrite <- append_assoc.
    change (String "{" ((body ++ "}}") ++ rest))
      with (String "{" (body ++ "}}") ++ rest).
    now rewrite re_sub_skip_prefix.
  - cbn [String.length]. rewrite append_length. simpl. lia.
Qed.

End TemplateShape.

Lemma resolve_as_re_sub (s : string) (data : json) :
  resolve (JStr s) data = re_sub (replacer data) 0 s.
Proof.
  unfold resolve. destruct (is_empty s) eqn:E.
  - apply is_empty_true in E. now subst s.
  - destruct (contains "{{" s) eqn:Hc; cbn [negb]; [reflexivity|].
    now rewrite re_sub_no_marker.
Qed.

(** X1.  The two early returns of [resolve] on a string template change
    nothing: for every string, empty or without marker included, the result
    is the one the substitution gives. *)
Theorem resolve_guards_transparent (s : string) (data : json) :
  resolve (JStr s) data = re_sub (replacer data) 0 s.
Proof. apply resolve_as_re_sub. Qed.

(** X2.  A template that is literal text free of braces, then a placeholder,
    then any rest, resolves to the literal text, followed by what the
    placeholder resolves to, followed by the resolution of the rest; an
    exception raised by the placeholder or by the rest is the one raised. *)
Theorem resolve_text_placeholder_rest (pre body rest : string) (data : json) :
  lacks "{" pre = true ->
  is_empty body = false -> lacks "}" body = true ->
  resolve (JStr (pre ++ "{{" ++ body ++ "}}" ++ rest)) data
  = r <- replacer data body ;;
    x <- resolve (JStr rest) data ;;
    Returns (pre ++ r ++ x).
Proof.
  intros Hpre Hne Hl. rewrite !resolve_as_re_sub.
  rewrite (re_sub_literal_prefix _ pre _ Hpre).
  rewrite (re_sub_placeholder _ body rest Hne Hl).
  destruct (replacer data body) as [r|e]; [|reflexivity]. cbn [bind].
  destruct (re_sub (replacer data) 0 rest) as [x|e]; reflexivity.
Qed.

Lemma resolve_text_placeholder_rest_witness :
  lacks "{" "https://orcid.org/" = true
  /\ is_empty "orcid-id" = false /\ lacks "}" "orcid-id" = true
  /\ resolve (JStr "https://orcid.org/{{orcid-id}} ({{name}})")
       (JDict [("orcid-id", JStr "0000-0001"); ("name", JStr "Curie")])
     = Returns "https://orcid.org/0000-0001 (Curie)".
Proof.
  split; [reflexivity|]. split; [reflexivity|]. split; [reflexivity|].
  exact (resolve_text_placeholder_rest "https://orcid.org/" "orcid-id"
           " ({{name}})"
           (JDict [("orcid-id", JStr "0000-0001"); ("name", JStr "Curie")])
           eq_refl eq_refl eq_refl).
Defined.

(* ------------------------------------------------------------------ *)
(** ** More on paths *)

Section PathShape.

Lemma startswith_append (sub a b : string) :
  startswith sub a = true -> startswith sub (a ++ b) = true.
Proof.
  revert a. induction sub as [|c sub IH]; intros a H; [reflexivity|].
  destruct a as [|x a]; [discriminate|]. cbn [append startswith] in *.
  apply andb_true_iff in H as [Hc H]. now rewrite Hc, (IH a H).
Qed.

Lemma contains_append_l (sub a b : string) :
  contains sub a = true -> contains sub (a ++ b) = true.
Proof.
  induction a as [|x a IH]; intros H.
  - cbn [contains] in H. rewrite orb_false_r in H.
    destruct sub; [now destruct b | discriminate].
  - change (contains sub (String x a))
      with (startswith sub (String x a) || contains sub a) in H.
    change (contains sub (String x a ++ b))
      with (startswith sub (String x a ++ b) || contains sub (a ++ b)).
    apply orb_true_iff in H as [H|H].
    + now rewrite (startswith_append _ _ b H).
    + rewrite (IH H). apply orb_true_r.
Qed.

Lemma contains_append_r (sub a b : string) :
  contains sub b = true -> contains sub (a ++ b) = true.
Proof.
  intros H. induction a as [|x a IH]; [exact H|].
  change (contains sub (String x a ++ b))
    with (startswith sub (String x a ++ b) || contains sub (a ++ b)).
  rewrite IH. apply orb_true_r.
Qed.

(** Splitting on a one-character separator distributes over a join. *)
Lemma split_go_join (c : ascii) (p q : string) :
  split_go (String c EmptyString) 0 (p ++ String c q)
  = (fst (split_go (String c EmptyString) 0 p),
     (snd (split_go (String c EmptyString) 0 p)
      ++ split (String c EmptyString) q)%list).
Proof.
  induction p as [|x p IH].
  - cbn [append split_go startswith String.length Nat.sub fst snd app].
    rewrite Ascii.eqb_refl. cbn [andb]. unfold split.
    now destruct (split_go (String c EmptyString) 0 q).
  - cbn [append]. cbn [split_go startswith String.length Nat.sub].
    rewrite IH. destruct (Ascii.eqb c x); cbn [andb fst snd];
      destruct (split_go (String c EmptyString) 0 p); reflexivity.
Qed.

Lemma split_join (c : ascii) (p q : string) :
  split (String c EmptyString) (p ++ String c q)
  = (split (String c EmptyString) p ++ split (String c EmptyString) q)%list.
Proof.
  unfold split at 1 2. rewrite split_go_join.
  now destruct (split_go (String c EmptyString) 0 p).
Qed.

Lemma walk_none (parts : list string) : walk parts JNull = Returns JNull.
Proof. destruct parts; reflexivity. Qed.

(** Walking two runs of segments is walking the second from where the
    first arrives. *)
Lemma walk_app (l1 l2 : list string) :
  forall current,
    walk (l1 ++ l2)%list current = v <- walk l1 current ;; walk l2 v.
Proof.
  induction l1 as [|part rest IH]; intros current; [reflexivity|].
  cbn [app]. rewrite !walk_cons.
  destruct (is_none current); [cbn [bind]; now rewrite walk_none|].
  destruct (startswith "[" part && endswith "]" part).
  - destruct (negb (isdigit (slice_1_m1 part)));
      [cbn [bind]; now rewrite walk_none|].
    destruct (py_int (slice_1_m1 part)) as [idx|e]; [|reflexivity].
    cbn [bind].
    destruct current; try (cbn [bind]; now rewrite walk_none).
    destruct (N.ltb idx (N.of_nat (List.length l)));
      [apply IH | cbn [bind]; now rewrite walk_none].
  - destruct current; try (cbn [bind]; now rewrite walk_none). apply IH.
Qed.

Lemma is_empty_append (a b : string) :
  is_empty a = false -> is_empty (a ++ b) = false.
Proof. destruct a; [discriminate | reflexivity]. Qed.

Lemma resolve_path_join (p q : string) (data : json) :
  is_empty p = false -> is_empty q = false ->
  contains ".[?" (p ++ "." ++ q) = false ->
  _resolve_path (p ++ "." ++ q) data
  = v <- _resolve_path p data ;; _resolve_path q v.
Proof.
  intros Hp Hq Hc.
  assert (Hcp : contains ".[?" p = false).
  { destruct (contains ".[?" p) eqn:E; [|reflexivity].
    now rewrite (contains_append_l _ _ ("." ++ q) E) in Hc. }
  assert (Hcq : contains ".[?" q = false).
  { destruct (contains ".[?" q) eqn:E; [|reflexivity].
    rewrite (contains_append_r ".[?" p ("." ++ q)) in Hc; [discriminate|].
    now apply (contains_append_r ".[?" "." q). }
  unfold _resolve_path.
  rewrite (is_empty_append p _ Hp), Hp, Hc, Hcp.
  change (p ++ "." ++ q) with (p ++ String "." q).
  rewrite split_join, walk_app.
  destruct (walk (split "." p) data) as [v|e]; [|reflexivity]. cbn [bind].
  now rewrite Hq, Hcq.
Qed.

(** A value without members answers [None] to every segment. *)
Lemma walk_leaf (parts : list string) (v : json) :
  is_leaf v = true -> parts <> [] ->
  Forall (fun p => int_safe p = true) parts ->
  walk parts v = Returns JNull.
Proof.
  intros Hv Hne Hsafe. destruct parts as [|part rest]; [contradiction|].
  inversion Hsafe as [|? ? Hp _]; subst. rewrite walk_cons.
  destruct (is_none v); [reflexivity|].
  destruct (startswith "[" part && endswith "]" part).
  - destruct (isdigit (slice_1_m1 part)) eqn:Hd; [|reflexivity].
    destruct (py_int_returns (slice_1_m1 part) Hd) as [n Hn].
    { eapply fragment_int_safe; [apply slice_1_m1_fragment | exact Hp]. }
    rewrite Hn. cbn [negb bind]. destruct v; try reflexivity; discriminate Hv.
  - destruct v; try reflexivity; discriminate Hv.
Qed.

Lemma resolve_plain_leaf (path : string) (v : json) :
  is_leaf v = true -> int_safe path = true ->
  _resolve_plain path v = Returns JNull.
Proof.
  intros Hv Hs. unfold _resolve_plain.
  destruct (is_empty path); [reflexivity|].
  apply walk_leaf; [exact Hv | apply split_not_nil | now apply split_int_safe].
Qed.

Lemma resolve_path_leaf (path : string) (v : json) :
  is_leaf v = true -> int_safe path = true ->
  _resolve_path path v = Returns JNull.
Proof.
  intros Hv Hs. unfold _resolve_path.
  destruct (is_empty path); [reflexivity|].
  destruct (contains ".[?" path).
  - unfold _resolve_filtered_array.
    destruct (match_filter path) as [[[[base f] x] r]|] eqn:Hm; [|reflexivity].
    apply match_filter_base in Hm as [Hb _].
    rewrite (resolve_plain_leaf base v Hv); [reflexivity|].
    eapply fragment_int_safe; [|exact Hs].
    rewrite Hb. apply span_not_fst_fragment.
  - apply walk_leaf; [exact Hv | apply split_not_nil | now apply split_int_safe].
Qed.

(** The pattern wants the filter right behind the first key. *)
Lemma match_filter_nested (a rest : string) :
  lacks "." a = true -> startswith "[?" rest = false ->
  match_filter (a ++ "." ++ rest) = None.
Proof.
  intros Ha Hr. unfold match_filter.
  change (a ++ "." ++ rest) with (a ++ String "." rest).
  rewrite (span_not_exact "." a rest Ha).
  destruct rest as [|c1 rest]; [reflexivity|].
  destruct (Ascii.eqb c1 "[") eqn:E1;
    [apply Ascii.eqb_eq in E1; subst c1
    | destruct c1 as [[] [] [] [] [] [] [] []]; try discriminate E1;
      reflexivity].
  destruct rest as [|c2 rest]; [reflexivity|].
  destruct (Ascii.eqb c2 "?") eqn:E2;
    [apply Ascii.eqb_eq in E2; subst c2; discriminate Hr
    | destruct c2 as [[] [] [] [] [] [] [] []]; try discriminate E2;
      reflexivity].
Qed.

End PathShape.

(** X3.  Dotted paths compose: for non-empty paths p and q without filter,
    the value of p.q in a document is the value of q in the value of p,
    and an exception raised on the way is the one raised. *)
Theorem path_join_composes (p q : string) (data : json) :
  is_empty p = false -> is_empty q = false ->
  contains ".[?" (p ++ "." ++ q) = false ->
  _resolve_path (p ++ "." ++ q) data
  = v <- _resolve_path p data ;; _resolve_path q v.
Proof. apply resolve_path_join. Qed.

Lemma path_join_composes_witness :
  is_empty "addresses.[0]" = false /\ is_empty "city" = false
  /\ contains ".[?" ("addresses.[0]" ++ "." ++ "city") = false
  /\ _resolve_path "addresses.[0].city"
       (JDict [("addresses", JList [JDict [("city", JStr "Paris")]])])
     = Returns (JStr "Paris").
Proof.
  split; [reflexivity|]. split; [reflexivity|]. split; [reflexivity|].
  refine (eq_trans (path_join_composes "addresses.[0]" "city"
            (JDict [("addresses", JList [JDict [("city", JStr "Paris")]])])
            eq_refl eq_refl eq_refl) _).
  reflexivity.
Defined.

(** X4.  A document, or a value reached in it, that is null, a boolean, a
    number or a string has no members: every path, plain or filtered, whose
    index segments [int] accepts yields None in it, and raises nothing. *)
Theorem leaf_has_no_members (path : string) (v : json) :
  is_leaf v = true -> int_safe path = true ->
  _resolve_path path v = Returns JNull.
Proof. apply resolve_path_leaf. Qed.

Lemma leaf_has_no_members_witness :
  is_leaf (JStr "Marie Curie") = true /\ int_safe "name.first.[0]" = true
  /\ _resolve_path "name.first.[0]" (JStr "Marie Curie") = Returns JNull.
Proof.
  split; [reflexivity|]. split; [reflexivity|].
  exact (leaf_has_no_members "name.first.[0]" (JStr "Marie Curie")
           eq_refl eq_refl).
Defined.

(** X5.  A filter applies to a top-level key only: when the text before
    the first dot of a path is not directly followed by the filter, a path
    that holds a filter further on yields None in every document. *)
Theorem nested_filter_yields_none (a rest : string) (data : json) :
  lacks "." a = true -> startswith "[?" rest = false ->
  contains ".[?" (a ++ "." ++ rest) = true ->
  _resolve_path (a ++ "." ++ rest) data = Returns JNull.
Proof.
  intros Ha Hr Hc. unfold _resolve_path. rewrite Hc.
  destruct (is_empty (a ++ "." ++ rest)); [reflexivity|].
  unfold _resolve_filtered_array.
  now rewrite (match_filter_nested a rest Ha Hr).
Qed.

Lemma nested_filter_yields_none_witness :
  lacks "." "org" = true /\ startswith "[?" "names.[?types=label].value" = false
  /\ contains ".[?" ("org" ++ "." ++ "names.[?types=label].value") = true
  /\ _resolve_path "org.names.[?types=label].value"
       (JDict [("org",
                JDict [("names",
                        JList [JDict [("types", JStr "label");
                                      ("value", JStr "Pasteur")]])])])
     = Returns JNull.
Proof.
  split; [reflexivity|]. split; [reflexivity|]. split; [reflexivity|].
  exact (nested_filter_yields_none "org" "names.[?types=label].value"
           (JDict [("org",
                    JDict [("names",
                            JList [JDict [("types", JStr "label");
                                          ("value", JStr "Pasteur")]])])])
           eq_refl eq_refl eq_refl).
Defined.

(* ------------------------------------------------------------------ *)
(** ** Keys and indices *)

Section KeysAndIndices.

Lemma digits_value_acc (d : Decimal.uint) :
  forall p, digits_value (Npos p) (NilEmpty.string_of_uint d)
            = Npos (Pos.of_uint_acc d p).
Proof.
  induction d; intros p; cbn [NilEmpty.string_of_uint Pos.of_uint_acc];
    [reflexivity| | | | | | | | | |];
    cbn [digits_value];
    match goal with
    | |- context [N.of_nat ?e] =>
        let k := eval vm_compute in (N.of_nat e) in
        change (N.of_nat e) with k
    end;
    match goal with
    | |- digits_value ?a _ = Npos (Pos.of_uint_acc _ ?q) =>
        replace a with (Npos q) by lia
    end; apply IHd.
Qed.

Lemma digits_value_of_uint (d : Decimal.uint) :
  digits_value 0 (NilEmpty.string_of_uint d) = Pos.of_uint d.
Proof.
  induction d; cbn [NilEmpty.string_of_uint Pos.of_uint digits_value];
    [reflexivity | exact IHd | | | | | | | | |];
    apply digits_value_acc.
Qed.

Lemma string_of_uint_digits (d : Decimal.uint) :
  all_chars is_ascii_digit (NilEmpty.string_of_uint d) = true.
Proof.
  induction d; cbn [NilEmpty.string_of_uint all_chars];
    [reflexivity | | | | | | | | | |]; rewrite IHd; reflexivity.
Qed.

Lemma decimal_not_empty (n : N) :
  is_empty (NilEmpty.string_of_uint (N.to_uint n)) = false.
Proof.
  destruct n as [|p]; [reflexivity|].
  pose proof (DecimalN.Unsigned.of_to (Npos p)) as H.
  destruct (N.to_uint (Npos p)); try reflexivity. discriminate H.
Qed.

(** [int] reads back the decimal writing of a number. *)
Lemma py_int_decimal (n : N) :
  Nat.leb (String.length (NilEmpty.string_of_uint (N.to_uint n)))
    int_max_str_digits = true ->
  py_int (NilEmpty.string_of_uint (N.to_uint n)) = Returns n.
Proof.
  intros Hlen. unfold py_int.
  rewrite decimal_not_empty, string_of_uint_digits, Hlen. cbn [negb andb].
  rewrite digits_value_of_uint.
  change (Pos.of_uint (N.to_uint n)) with (N.of_uint (N.to_uint n)).
  now rewrite DecimalN.Unsigned.of_to.
Qed.

Lemma all_chars_weaken (p q : ascii -> bool) (s : string) :
  (forall c, p c = true -> q c = true) ->
  all_chars p s = true -> all_chars q s = true.
Proof.
  intros Hpq. induction s as [|c s IH]; [reflexivity|].
  cbn [all_chars]. intros H. apply andb_true_iff in H as [Hc Hs].
  now rewrite (Hpq c Hc), (IH Hs).
Qed.

Lemma endswith_snoc (c : ascii) (a : string) :
  endswith (String c EmptyString) (a ++ String c EmptyString) = true.
Proof.
  induction a as [|x a IH].
  - cbn [append endswith]. now rewrite String.eqb_refl.
  - cbn [append]. cbn [endswith]. rewrite IH. apply orb_true_r.
Qed.

Lemma drop_last_snoc (c : ascii) (a : string) :
  drop_last (a ++ String c EmptyString) = a.
Proof.
  induction a as [|x a IH]; [reflexivity|].
  cbn [append drop_last]. rewrite IH. now destruct a.
Qed.

Lemma digits_lack (c : ascii) (s : string) :
  is_ascii_digit c = false ->
  all_chars is_ascii_digit s = true -> lacks c s = true.
Proof.
  intros Hc. unfold lacks. induction s as [|x s IH]; [reflexivity|].
  cbn [all_chars]. intros H. apply andb_true_iff in H as [Hx Hs].
  rewrite (IH Hs), andb_true_r. apply negb_true_iff.
  destruct (Ascii.eqb x c) eqn:E; [|reflexivity].
  apply Ascii.eqb_eq in E. congruence.
Qed.

Lemma lacks_append (c : ascii) (a b : string) :
  lacks c a = true -> lacks c b = true -> lacks c (a ++ b) = true.
Proof.
  unfold lacks. induction a as [|x a IH]; intros Ha Hb; [exact Hb|].
  cbn [append all_chars] in *. apply andb_true_iff in Ha as [Hx Ha].
  now rewrite Hx, (IH Ha Hb).
Qed.

(** A string without the separator is its only piece. *)
Lemma split_lacks (c : ascii) (s : string) :
  lacks c s = true -> split (String c EmptyString) s = [s].
Proof.
  intros H. unfold split.
  assert (Hgo : split_go (String c EmptyString) 0 s = (s, [])).
  { unfold lacks in H. induction s as [|x s IH]; [reflexivity|].
    cbn [all_chars] in H. apply andb_true_iff in H as [Hx Hs].
    apply negb_true_iff in Hx. cbn [split_go startswith].
    rewrite Ascii.eqb_sym, Hx, (IH Hs). reflexivity. }
  now rewrite Hgo.
Qed.

Lemma index_segment_parts (n : N) :
  let s := NilEmpty.string_of_uint (N.to_uint n) in
  is_empty (index_segment n) = false
  /\ contains ".[?" (index_segment n) = false
  /\ split "." (index_segment n) = [index_segment n]
  /\ startswith "[" (index_segment n) && endswith "]" (index_segment n) = true
  /\ slice_1_m1 (index_segment n) = s.
Proof.
  intros s. unfold index_segment. fold s.
  assert (Hl : lacks "." ("[" ++ s ++ "]") = true).
  { apply (lacks_append "." "[" (s ++ "]")); [reflexivity|].
    apply lacks_append; [|reflexivity].
    apply digits_lack; [reflexivity | apply string_of_uint_digits]. }
  split; [reflexivity|]. split; [now apply lacks_contains|].
  split; [now apply split_lacks|]. split.
  - cbn [append startswith]. rewrite Ascii.eqb_refl. cbn [andb].
    change (String "[" (s ++ "]")) with (String "[" s ++ "]").
    apply endswith_snoc.
  - cbn [append slice_1_m1]. apply drop_last_snoc.
Qed.

Lemma lookup_dict_set (key : string) (v : json) (d : dict) :
  lookup key (dict_set key v d) = Some v.
Proof.
  induction d as [|[k w] d IH]; cbn [dict_set lookup].
  - now rewrite String.eqb_refl.
  - destruct (String.eqb k key) eqn:E; cbn [lookup]; now rewrite E.
Qed.

Lemma lookup_dict_set_other (key other : string) (v : json) (d : dict) :
  String.eqb key other = false ->
  lookup other (dict_set key v d) = lookup other d.
Proof.
  intros Hne. induction d as [|[k w] d IH]; cbn [dict_set lookup].
  - now rewrite Hne.
  - destruct (String.eqb k key) eqn:E; cbn [lookup].
    + apply String.eqb_eq in E. subst k. now rewrite Hne.
    + now rewrite IH.
Qed.

(** The first piece of a split is what stands before the first separator. *)
Lemma split_go_first (c : ascii) (s : string) :
  fst (split_go (String c EmptyString) 0 s) = fst (span_not c s).
Proof.
  induction s as [|x s IH]; [reflexivity|].
  cbn [split_go startswith span_not]. rewrite (Ascii.eqb_sym x c).
  destruct (Ascii.eqb c x); cbn [andb fst].
  - reflexivity.
  - destruct (split_go (String c EmptyString) 0 s),
             (span_not c s). cbn [fst] in *. now rewrite IH.
Qed.

Lemma lacks_not_self (c : ascii) (a b : string) :
  lacks c a = true -> String.eqb (a ++ String c b) a = false.
Proof.
  intros Ha. destruct (String.eqb (a ++ String c b) a) eqn:E; [|reflexivity].
  apply String.eqb_eq in E. unfold lacks in Ha. exfalso.
  revert E. induction a as [|x a IH]; cbn [append]; intros E.
  - discriminate E.
  - injection E as E. cbn [all_chars] in Ha.
    apply andb_true_iff in Ha as [_ Ha]. now apply IH.
Qed.

End KeysAndIndices.

(** X6.  An index segment written in decimal reads the element of that
    rank: for every number n and every array, the path [n] yields the n-th
    element, counted from 0, and None when the array has no such rank. *)
Theorem index_segment_reads_element (n : N) (l : list json) :
  int_safe (index_segment n) = true ->
  _resolve_path (index_segment n) (JList l)
  = Returns (nth (N.to_nat n) l JNull).
Proof.
  intros Hs.
  destruct (index_segment_parts n) as [He [Hc [Hsp [Hb Hsl]]]].
  unfold _resolve_path. rewrite He, Hc, Hsp, walk_cons. cbn [is_none].
  rewrite Hb, Hsl.
  assert (Hlen : Nat.leb (String.length
                            (NilEmpty.string_of_uint (N.to_uint n)))
                   int_max_str_digits = true).
  { assert (Hf : int_safe (NilEmpty.string_of_uint (N.to_uint n)) = true).
    { eapply fragment_int_safe; [|exact Hs].
      rewrite <- Hsl. apply slice_1_m1_fragment. }
    unfold int_safe in Hf. now apply andb_true_iff in Hf as [_ Hf]. }
  unfold isdigit. rewrite decimal_not_empty. cbn [negb andb].
  assert (Hd : all_chars (fun c => is_ascii_digit c || is_superscript_digit c)
                 (NilEmpty.string_of_uint (N.to_uint n)) = true).
  { apply (all_chars_weaken is_ascii_digit);
      [intros c Hc'; now rewrite Hc' | apply string_of_uint_digits]. }
  rewrite Hd. cbn [negb]. rewrite (py_int_decimal n Hlen). cbn [bind].
  destruct (N.ltb n (N.of_nat (List.length l))) eqn:Hlt; [reflexivity|].
  apply N.ltb_ge in Hlt. rewrite nth_overflow; [reflexivity | lia].
Qed.

Lemma index_segment_reads_element_witness :
  int_safe (index_segment 12) = true
  /\ index_segment 12 = "[12]"
  /\ _resolve_path "[12]"
       (JList (repeat JNull 12 ++ [JStr "thirteenth"])%list)
     = Returns (JStr "thirteenth")
  /\ _resolve_path "[12]" (JList [JStr "only"]) = Returns JNull.
Proof.
  split; [reflexivity|]. split; [reflexivity|]. split.
  - exact (index_segment_reads_element 12
             (repeat JNull 12 ++ [JStr "thirteenth"])%list eq_refl).
  - exact (index_segment_reads_element 12 [JStr "only"] eq_refl).
Defined.

(** X7.  What is stored under a plain key is what the path made of that
    key yields: for every non-empty key without dot that is not written
    like an index, and every object, the path reads the member, and None
    when there is none. *)
Theorem plain_key_reads_member (key : string) (v : json) (d : dict) :
  is_empty key = false -> lacks "." key = true ->
  startswith "[" key && endswith "]" key = false ->
  _resolve_path key (JDict (dict_set key v d)) = Returns v
  /\ _resolve_path key (JDict d) = Returns (dict_get key d JNull).
Proof.
  intros Hne Hl Hb.
  assert (H : forall m, _resolve_path key (JDict m)
                        = Returns (dict_get key m JNull)).
  { intros m. unfold _resolve_path.
    rewrite Hne, (lacks_contains "." "[?" key Hl), (split_lacks "." key Hl).
    rewrite walk_cons. cbn [is_none]. now rewrite Hb. }
  split; [|apply H].
  rewrite H. unfold dict_get. now rewrite lookup_dict_set.
Qed.

Lemma plain_key_reads_member_witness :
  is_empty "orcid-id" = false /\ lacks "." "orcid-id" = true
  /\ startswith "[" "orcid-id" && endswith "]" "orcid-id" = false
  /\ _resolve_path "orcid-id"
       (JDict (dict_set "orcid-id" (JStr "0000-0001") [("name", JStr "Curie")]))
     = Returns (JStr "0000-0001").
Proof.
  split; [reflexivity|]. split; [reflexivity|]. split; [reflexivity|].
  apply (plain_key_reads_member "orcid-id" (JStr "0000-0001")
           [("name", JStr "Curie")] eq_refl eq_refl eq_refl).
Defined.

(** X8.  A member whose key holds a dot cannot be addressed: a path is cut
    at its dots before any lookup, so the value of the path a.b in an
    object does not depend on what the object binds to the key a.b. *)
Theorem dotted_key_unreachable (a b : string) (v : json) (d : dict) :
  lacks "." a = true ->
  _resolve_path (a ++ "." ++ b) (JDict (dict_set (a ++ "." ++ b) v d))
  = _resolve_path (a ++ "." ++ b) (JDict d).
Proof.
  intros Ha.
  change (a ++ "." ++ b) with (a ++ String "." b).
  pose proof (lacks_not_self "." a b Ha) as Hne.
  assert (Hget : dict_get a (dict_set (a ++ String "." b) v d) JNull
                 = dict_get a d JNull).
  { unfold dict_get. now rewrite lookup_dict_set_other. }
  assert (Hw : forall rest,
             walk (a :: rest) (JDict (dict_set (a ++ String "." b) v d))
             = walk (a :: rest) (JDict d)).
  { intros rest. rewrite !walk_cons. cbn [is_none]. now rewrite Hget. }
  unfold _resolve_path.
  destruct (is_empty (a ++ String "." b)); [reflexivity|].
  destruct (contains ".[?" (a ++ String "." b)).
  - unfold _resolve_filtered_array.
    destruct (match_filter (a ++ String "." b))
      as [[[[base f] x] r]|] eqn:Hm; [|reflexivity].
    apply match_filter_base in Hm as [Hbase _].
    rewrite (span_not_exact "." a b Ha) in Hbase. cbn [fst] in Hbase.
    subst base. unfold _resolve_plain.
    destruct (is_empty a); [reflexivity|].
    rewrite (split_lacks "." a Ha). now rewrite Hw.
  - rewrite split_join, (split_lacks "." a Ha). cbn [app]. apply Hw.
Qed.

Lemma dotted_key_unreachable_witness :
  lacks "." "country" = true
  /\ _resolve_path "country.name"
       (JDict (dict_set "country.name" (JStr "France") []))
     = Returns JNull.
Proof.
  split; [reflexivity|].
  exact (dotted_key_unreachable "country" "name" (JStr "France") [] eq_refl).
Defined.

(* ------------------------------------------------------------------ *)
(** ** More on the strategies *)

(** X9.  The generic mapper attaches an xrefs member exactly when the
    configuration has one, also when every entry is left out, and the
    member is then a mapping; scheme is the configuration's scheme as it
    is, with no placeholder resolved in it. *)
Theorem generic_map_xrefs_member (hit : json) (config : dict) :
  config_ok config = true ->
  exists r,
    _generic_map hit (JDict config) = Returns (JDict r)
    /\ dict_has "xrefs" r = dict_has "xrefs" config
    /\ (forall x, lookup "xrefs" r = Some x -> is_dict x = true)
    /\ lookup "scheme" r = Some (dict_get "scheme" config (JStr "")).
Proof.
  intros Hok. rewrite (generic_map_record hit config Hok).
  eexists. split; [reflexivity|].
  unfold xrefs_member, dict_has. cbn [app lookup String.eqb Ascii.eqb Bool.eqb].
  unfold config_ok in Hok. apply andb_true_iff in Hok as [Hok _].
  apply andb_true_iff in Hok as [_ Hx].
  destruct (lookup "xrefs" config) as [x|]; cbn [app lookup String.eqb
    Ascii.eqb Bool.eqb].
  - repeat split. intros y Hy. injection Hy as <-.
    destruct (resolve_xrefs_returns hit x Hx) as [out Hout].
    now rewrite Hout.
  - repeat split. discriminate.
Qed.

Lemma generic_map_xrefs_member_witness :
  config_ok [("label", JStr "{{symbol}}");
             ("xrefs", JDict [("rgd", JDict [("id", JStr "{{RGD}}")])])] = true
  /\ _generic_map (JDict [("symbol", JStr "Apoe")])
       (JDict [("label", JStr "{{symbol}}");
               ("xrefs", JDict [("rgd", JDict [("id", JStr "{{RGD}}")])])])
     = Returns (JDict [("label", JStr "Apoe"); ("sublabel", JStr "");
                       ("id", JStr ""); ("scheme", JStr "");
                       ("xrefs", JDict [])]).
Proof.
  split; [reflexivity|].
  destruct (generic_map_xrefs_member (JDict [("symbol", JStr "Apoe")])
              [("label", JStr "{{symbol}}");
               ("xrefs", JDict [("rgd", JDict [("id", JStr "{{RGD}}")])])]
              eq_refl) as [r [Hr _]].
  reflexivity.
Defined.

Section XrefsInvariants.

Variable hit : json.

Lemma xref_entry_emitted (entry : string * json) (k : string) (v : json) :
  In (k, v) (xref_entry hit entry) ->
  k = fst entry /\ emitted_xref v
  /\ exists t, snd entry = JDict t.
Proof.
  destruct entry as [db tpl]. unfold xref_entry.
  destruct tpl as [| | | | | |t]; try contradiction.
  destruct (dict_has "condition" t && _); [contradiction|].
  destruct (is_empty (resolved (dict_get "id" t (JStr "")) hit)) eqn:E;
    [contradiction|].
  intros [H|[]]. injection H as <- <-. cbn [fst snd].
  split; [reflexivity|]. split; [|now exists t].
  do 3 eexists. split; [reflexivity | exact E].
Qed.

Lemma lookup_in (k : string) (v : json) (d : dict) :
  lookup k d = Some v -> In (k, v) d.
Proof.
  induction d as [|[k' w] d IH]; cbn [lookup]; [discriminate|].
  destruct (String.eqb k' k) eqn:E.
  - apply String.eqb_eq in E. subst k'. intros H. injection H as <-. now left.
  - intros H. right. now apply IH.
Qed.

Lemma in_flat_map_entry (items : dict) (k : string) (v : json) :
  In (k, v) (flat_map (xref_entry hit) items) ->
  emitted_xref v /\ exists t, In (k, JDict t) items.
Proof.
  intros H. apply in_flat_map in H as [[db tpl] [Hin Hk]].
  apply xref_entry_emitted in Hk as [Hk [Hv [t Ht]]]. cbn [fst snd] in *.
  subst db tpl. split; [exact Hv | now exists t].
Qed.

Lemma flat_map_entry_nodup (items : dict) :
  NoDup (keys items) -> NoDup (keys (flat_map (xref_entry hit) items)).
Proof.
  induction items as [|[db tpl] items IH]; intros Hnd; [constructor|].
  inversion Hnd as [|? ? Hnotin Hnd']; subst. cbn [flat_map].
  unfold keys. rewrite map_app. fold (keys (flat_map (xref_entry hit) items)).
  assert (Hrest : NoDup (keys (flat_map (xref_entry hit) items)))
    by now apply IH.
  unfold xref_entry at 1.
  destruct tpl as [| | | | | |t]; try exact Hrest.
  destruct (dict_has "condition" t && _); [exact Hrest|].
  destruct (is_empty _); [exact Hrest|].
  cbn [map app fst]. constructor; [|exact Hrest].
  intros Hin. apply Hnotin. unfold keys in Hin. apply in_map_iff in Hin
    as [[k v] [Hk Hin]]. cbn [fst] in Hk. subst k.
  apply in_flat_map_entry in Hin as [_ [t' Hin]].
  unfold keys. apply in_map_iff. now exists (db, JDict t').
Qed.

End XrefsInvariants.

(** X10.  Whatever the hit, the mapping [_resolve_xrefs] returns holds only
    names of the configuration, none twice, and every member it holds is a
    record of exactly id, uri and label whose id is a non-empty string: an
    entry is never emitted with an empty id. *)
Theorem xrefs_emitted_have_id (hit : json) (items : dict) :
  NoDup (keys items) -> forallb xref_ok items = true ->
  exists out,
    _resolve_xrefs hit (JDict items) = Returns (JDict out)
    /\ NoDup (keys out)
    /\ forall k v, lookup k out = Some v ->
                   emitted_xref v /\ exists t, In (k, JDict t) items.
Proof.
  intros Hnd Hok. rewrite (resolve_xrefs_entries hit items Hnd Hok).
  eexists. split; [reflexivity|]. split.
  - now apply flat_map_entry_nodup.
  - intros k v Hk. apply lookup_in in Hk. now apply in_flat_map_entry in Hk.
Qed.

Lemma xrefs_emitted_have_id_witness :
  NoDup (keys (match mygene_xrefs with JDict items => items | _ => [] end))
  /\ forallb xref_ok (match mygene_xrefs with JDict items => items | _ => [] end)
     = true
  /\ exists out,
       _resolve_xrefs mygene_hit mygene_xrefs = Returns (JDict out)
       /\ NoDup (keys out)
       /\ forall k v, lookup k out = Some v ->
            emitted_xref v
            /\ exists t, In (k, JDict t)
                 (match mygene_xrefs with JDict items => items | _ => [] end).
Proof.
  assert (Hnd : NoDup (keys (match mygene_xrefs with
                             | JDict items => items | _ => [] end))).
  { repeat constructor; simpl; intuition discriminate. }
  split; [exact Hnd|]. split; [reflexivity|].
  exact (xrefs_emitted_have_id mygene_hit _ Hnd eq_refl).
Defined.

(** X11.  What the custom strategy does is decided by function_name alone:
    when it is a non-empty string registered in the registry, the registered
    function is called on the hit and the configuration; when it is a
    non-empty list or object, the lookup raises TypeError; in every other
    case (missing, null, empty, a number, a boolean, an unregistered name)
    the generic mapper runs. *)
Theorem custom_three_ways (reg : registry) (hit : json) (config : dict) :
  custom reg hit (JDict config)
  = match custom_target reg config with
    | Some f => f hit (JDict config)
    | None =>
        if unhashable_name config then Raises TypeError
        else _generic_map hit (JDict config)
    end.
Proof.
  unfold custom, custom_target, unhashable_name. cbn [py_get bind].
  destruct (dict_get "function_name" config JNull) as [|b|z|r|name|l|d];
    cbn [truthy]; try reflexivity;
    try (destruct b; reflexivity);
    try (destruct (negb _); reflexivity);
    try (destruct l; reflexivity);
    try (destruct d; reflexivity).
  destruct (is_empty name); cbn [negb]; [reflexivity|].
  now destruct (registered name reg).
Qed.

Section Registration.

Lemma registered_set (name : string) (func : mapper) (reg : registry) :
  registered name (registry_set name func reg) = Some func.
Proof.
  induction reg as [|[n f] reg IH]; cbn [registry_set registered].
  - now rewrite String.eqb_refl.
  - destruct (String.eqb n name) eqn:E; cbn [registered]; now rewrite E.
Qed.

Lemma registered_set_other (name other : string) (func : mapper)
  (reg : registry) :
  String.eqb name other = false ->
  registered other (registry_set name func reg) = registered other reg.
Proof.
  intros Hne. induction reg as [|[n f] reg IH]; cbn [registry_set registered].
  - now rewrite Hne.
  - destruct (String.eqb n name) eqn:E; cbn [registered].
    + apply String.eqb_eq in E. subst n. now rewrite Hne.
    + now rewrite IH.
Qed.

End Registration.

(** X12.  After [register_custom_mapper(name)(func)] the registry answers
    [func] for that name, whatever was registered under it before, and
    answers as before for every other name; the custom strategy then calls
    [func] on every hit whose configuration names it, when the name is not
    empty. *)
Theorem register_then_dispatch (name : string) (func : mapper)
  (reg : registry) :
  let reg' := fst (register_custom_mapper name func reg) in
  registered name reg' = Some func
  /\ (forall other, String.eqb name other = false ->
                    registered other reg' = registered other reg)
  /\ (is_empty name = false ->
      forall hit config,
        dict_get "function_name" config JNull = JStr name ->
        mapHit reg' "custom" hit (JDict config) = func hit (JDict config)).
Proof.
  cbn [register_custom_mapper fst]. split; [apply registered_set|].
  split; [intros other; apply registered_set_other|].
  intros Hne hit config Hfn.
  apply (mapHit_custom_registered _ name func hit config Hfn Hne).
  apply registered_set.
Qed.

Lemma register_then_dispatch_witness :
  is_empty "normalize_mgi" = false
  /\ mapHit (fst (register_custom_mapper "normalize_mgi" obo_ontology
                    CUSTOM_MAPPERS)) "custom"
       (JDict [("label", JStr "Apoe")])
       (JDict [("function_name", JStr "normalize_mgi")])
     = obo_ontology (JDict [("label", JStr "Apoe")])
         (JDict [("function_name", JStr "normalize_mgi")]).
Proof.
  split; [reflexivity|].
  destruct (register_then_dispatch "normalize_mgi" obo_ontology CUSTOM_MAPPERS)
    as [_ [_ H]].
  exact (H eq_refl (JDict [("label", JStr "Apoe")])
           [("function_name", JStr "normalize_mgi")] eq_refl).
Defined.

(* ------------------------------------------------------------------ *)
(** ** normalize_mgi_mapper *)

(** X13.  The mapper gives the same record for an MGI member written with
    the prefix and without it: for every non-empty string s that does not
    start with MGI:, the hits whose MGI is s and MGI:s are mapped alike. *)
Theorem normalize_mgi_prefix_free (s : string) (h : dict) (config : json) :
  is_empty s = false -> startswith "MGI:" s = false ->
  normalize_mgi_mapper (JDict (("MGI", JStr s) :: h)) config
  = normalize_mgi_mapper (JDict (("MGI", JStr ("MGI:" ++ s)) :: h)) config.
Proof.
  intros Hne Hp. unfold normalize_mgi_mapper.
  cbn [py_get bind dict_get lookup String.eqb Ascii.eqb Bool.eqb py_str].
  rewrite Hp, Hne.
  cbn [append startswith Ascii.eqb Bool.eqb andb]. reflexivity.
Qed.

Lemma normalize_mgi_prefix_free_witness :
  is_empty "88057" = false /\ startswith "MGI:" "88057" = false
  /\ normalize_mgi_mapper (JDict [("MGI", JStr "88057"); ("symbol", JStr "Apoe")])
       JNull
     = normalize_mgi_mapper
         (JDict [("MGI", JStr "MGI:88057"); ("symbol", JStr "Apoe")]) JNull
  /\ normalize_mgi_mapper (JDict [("MGI", JStr "88057"); ("symbol", JStr "Apoe")])
       JNull
     = Returns (JDict [("label", JStr "Apoe"); ("sublabel", JStr "");
                       ("id", JStr "https://identifiers.org/mgi:MGI:88057");
                       ("scheme", JStr "MGI")]).
Proof.
  split; [reflexivity|]. split; [reflexivity|]. split; [|reflexivity].
  exact (normalize_mgi_prefix_free "88057" [("symbol", JStr "Apoe")] JNull
           eq_refl eq_refl).
Defined.

(** X14.  For every hit that is an object, whatever its MGI member, the
    record of the mapper has the scheme MGI and an id that is either empty
    or an identifiers.org address of an identifier that starts with MGI:. *)
Theorem normalize_mgi_id_shape (h : dict) (config : json) :
  exists r id,
    normalize_mgi_mapper (JDict h) config = Returns (JDict r)
    /\ lookup "id" r = Some (JStr id)
    /\ (id = "" \/ startswith "https://identifiers.org/mgi:MGI:" id = true)
    /\ lookup "scheme" r = Some (JStr "MGI").
Proof.
  unfold normalize_mgi_mapper. cbn [py_get bind].
  match goal with
  | |- context [py_str ?v] => remember (py_str v) as raw eqn:Hraw
  end.
  clear Hraw. do 2 eexists. split; [reflexivity|].
  cbn [lookup String.eqb Ascii.eqb Bool.eqb]. split; [reflexivity|].
  split; [|reflexivity].
  destruct (startswith "MGI:" raw) eqn:Hp.
  - destruct raw as [|c raw]; [discriminate Hp|]. right.
    cbn [is_empty append startswith Ascii.eqb Bool.eqb andb]. exact Hp.
  - destruct raw as [|c raw]; [now left|]. right. reflexivity.
Qed.

(** X15.  A list under MGI stands for its first element, when that is not
    a list itself, and an empty list for no MGI at all; a null MGI, unlike a
    missing one, is printed: its id ends in MGI:None. *)
Theorem normalize_mgi_list_and_null (h : dict) (config : json) :
  (forall x xs,
      is_list x = false ->
      normalize_mgi_mapper (JDict (("MGI", JList (x :: xs)) :: h)) config
      = normalize_mgi_mapper (JDict (("MGI", x) :: h)) config)
  /\ normalize_mgi_mapper (JDict (("MGI", JList []) :: h)) config
     = normalize_mgi_mapper (JDict (("MGI", JStr "") :: h)) config
  /\ (exists r,
         normalize_mgi_mapper (JDict (("MGI", JNull) :: h)) config
         = Returns (JDict r)
         /\ lookup "id" r
            = Some (JStr "https://identifiers.org/mgi:MGI:None"))
  /\ (lookup "MGI" h = None ->
      exists r,
        normalize_mgi_mapper (JDict h) config = Returns (JDict r)
        /\ lookup "id" r = Some (JStr "")).
Proof.
  repeat split.
  - intros x xs Hx. unfold normalize_mgi_mapper.
    cbn [py_get bind dict_get lookup String.eqb Ascii.eqb Bool.eqb].
    destruct x; try reflexivity. discriminate Hx.
  - eexists. split; reflexivity.
  - intros Hm. unfold normalize_mgi_mapper. cbn [py_get bind].
    unfold dict_get. rewrite Hm. eexists. split; reflexivity.
Qed.

Lemma normalize_mgi_list_and_null_witness :
  is_list (JInt 88057) = false
  /\ lookup "MGI" [("symbol", JStr "Apoe")] = None
  /\ normalize_mgi_mapper
       (JDict [("MGI", JList [JInt 88057; JInt 1]); ("symbol", JStr "Apoe")])
       JNull
     = normalize_mgi_mapper
         (JDict [("MGI", JInt 88057); ("symbol", JStr "Apoe")]) JNull
  /\ exists r,
       normalize_mgi_mapper (JDict [("symbol", JStr "Apoe")]) JNull
       = Returns (JDict r)
       /\ lookup "id" r = Some (JStr "").
Proof.
  destruct (normalize_mgi_list_and_null [("symbol", JStr "Apoe")] JNull)
    as [H1 [_ [_ H4]]].
  split; [reflexivity|]. split; [reflexivity|]. split.
  - exact (H1 (JInt 88057) [JInt 1] eq_refl).
  - exact (H4 eq_refl).
Defined.

(* ------------------------------------------------------------------ *)
(** ** search_api *)

Section Search.

Variable reg : registry.

Lemma map_hits_forall2 (f : json -> result json) (hits : list json) :
  forall results,
    map_hits f hits = Returns results <->
    Forall2 (fun hit r => f hit = Returns r) hits results.
Proof.
  induction hits as [|hit hits IH]; intros results; cbn [map_hits].
  - split.
    + intros H. injection H as <-. constructor.
    + intros H. inversion H. reflexivity.
  - split.
    + destruct (f hit) as [r|e] eqn:Hf; [|discriminate]. cbn [bind].
      destruct (map_hits f hits) as [rs|e] eqn:Hrs; [|discriminate].
      cbn [bind]. intros H. injection H as <-.
      constructor; [exact Hf | now apply IH].
    + intros H. inversion H as [|? r ? rs Hf Hrs]; subst.
      rewrite Hf. cbn [bind]. apply IH in Hrs. now rewrite Hrs.
Qed.

Lemma map_hits_raises (f : json -> result json) (hits : list json)
  (hit : json) (e : exn) :
  In hit hits -> f hit = Raises e -> exists e', map_hits f hits = Raises e'.
Proof.
  induction hits as [|h hits IH]; intros Hin Hf; [contradiction|].
  cbn [map_hits]. destruct Hin as [-> | Hin].
  - rewrite Hf. now exists e.
  - destruct (f h) as [r|e1]; [|now exists e1]. cbn [bind].
    destruct (IH Hin Hf) as [e' He']. rewrite He'. now exists e'.
Qed.

Lemma map_results_length (api_def : dict) (hits results : list json) :
  map_results reg api_def hits = Returns results ->
  List.length results = List.length hits.
Proof.
  unfold map_results.
  destruct (negb (truthy (dict_get "mapper" api_def (JDict [])))).
  - intros H. now injection H as <-.
  - destruct (py_get _ "strategy" _) as [strategy|e]; [|discriminate].
    cbn [bind]. destruct strategy; try discriminate.
    intros H. apply map_hits_forall2 in H.
    symmetry. eapply Forall2_length. exact H.
Qed.

Lemma slice_stop_le (limit : Z) (len : nat) :
  (0 <= limit)%Z -> (Z.of_nat (slice_stop limit len) <= limit)%Z.
Proof.
  intros H. unfold slice_stop.
  destruct (Z.ltb limit 0) eqn:E; [apply Z.ltb_lt in E; lia|]. lia.
Qed.

Lemma handle_found (api_def : dict) (status : Z) (data : json)
  (results : list json) :
  handle_response reg api_def status data = Found results ->
  status = 200%Z
  /\ exists hits,
       extract_hits api_def data = Returns hits
       /\ map_results reg api_def hits = Returns results.
Proof.
  unfold handle_response. destruct (Z.eqb status 200) eqn:Es;
    cbn [negb]; [|discriminate].
  apply Z.eqb_eq in Es.
  destruct (extract_hits api_def data) as [hits|e]; [|discriminate].
  cbn [bind].
  destruct (map_results reg api_def hits) as [rs|e] eqn:Hm; [|discriminate].
  intros H. injection H as <-. split; [exact Es|]. now exists hits.
Qed.

Lemma descend_empty_list (path_keys : list string) :
  descend path_keys (JList []) = JList [].
Proof.
  induction path_keys as [|key rest IH]; [reflexivity|].
  cbn [descend]. now destruct (is_empty key).
Qed.

Lemma descend_not_object (path_keys : list string) (data : json) :
  is_dict data = false ->
  existsb (fun key => negb (is_empty key)) path_keys = true ->
  descend path_keys data = JList [].
Proof.
  intros Hd. induction path_keys as [|key rest IH]; [discriminate|].
  cbn [existsb descend]. destruct (is_empty key); cbn [negb orb].
  - exact IH.
  - intros _. destruct data; try apply descend_empty_list. discriminate Hd.
Qed.

End Search.

(** X16.  A response never holds more results than the limit: when
    [search_api] answers with results and result_limit is a non-negative
    integer, there are at most that many; when the definition of the API
    has no result_limit, there are at most 10. *)
Theorem search_results_within_limit (reg : registry) (api_def : dict)
  (status : Z) (data : json) (results : list json) :
  handle_response reg api_def status data = Found results ->
  (forall limit,
      dict_get "result_limit" api_def (JInt 10) = JInt limit ->
      (0 <= limit)%Z -> (Z.of_nat (List.length results) <= limit)%Z)
  /\ (lookup "result_limit" api_def = None -> List.length results <= 10).
Proof.
  intros H. apply handle_found in H as [_ [hits [Hex Hmap]]].
  apply map_results_length in Hmap.
  assert (Hlim : forall limit,
             dict_get "result_limit" api_def (JInt 10) = JInt limit ->
             (0 <= limit)%Z -> (Z.of_nat (List.length results) <= limit)%Z).
  { intros limit Hl Hpos. unfold extract_hits in Hex.
    destruct (dict_get "result_path" api_def (JStr "")); try discriminate.
    rewrite Hl in Hex. cbn [slice_to] in Hex. injection Hex as <-.
    rewrite Hmap, length_firstn.
    pose proof (slice_stop_le limit
                  (List.length match descend (split "." s) data with
                               | JList l => l
                               | _ => []
                               end) Hpos). lia. }
  split; [exact Hlim|].
  intros Hnone. assert (Hd : dict_get "result_limit" api_def (JInt 10) = JInt 10).
  { unfold dict_get. now rewrite Hnone. }
  specialize (Hlim 10%Z Hd). lia.
Qed.

Lemma search_results_within_limit_witness :
  handle_response CUSTOM_MAPPERS solr_api 200 solr_body
  = Found [JDict [("label", JStr "Mus musculus"); ("sublabel", JStr "");
                  ("id", JStr ""); ("scheme", JStr "NCBITaxon");
                  ("description", JStr "")];
           JDict [("label", JStr "Mus spretus"); ("sublabel", JStr "");
                  ("id", JStr ""); ("scheme", JStr "NCBITaxon");
                  ("description", JStr "")]]
  /\ (Z.of_nat 2 <= 2)%Z.
Proof.
  split; [reflexivity|].
  destruct (search_results_within_limit CUSTOM_MAPPERS solr_api 200 solr_body
              _ eq_refl) as [H _].
  exact (H 2%Z eq_refl ltac:(lia)).
Defined.

(** X17.  When a mapper is configured and [search_api] answers with
    results, the results are the hits found in the body, cut at the limit,
    each mapped by the strategy the configuration names, in the order of
    the hits, and there are as many results as hits.  The name of the
    strategy is none of those Python gives every class. *)
Theorem search_results_pointwise (reg : registry) (api_def : dict)
  (status : Z) (data : json) (results : list json) :
  truthy (dict_get "mapper" api_def (JDict [])) = true ->
  (forall name,
      py_get (dict_get "mapper" api_def (JDict [])) "strategy"
        (JStr "flat_object") = Returns (JStr name) ->
      python_class_name name = false) ->
  handle_response reg api_def status data = Found results ->
  exists hits name,
    extract_hits api_def data = Returns hits
    /\ py_get (dict_get "mapper" api_def (JDict [])) "strategy"
         (JStr "flat_object") = Returns (JStr name)
    /\ python_class_name name = false
    /\ List.length results = List.length hits
    /\ Forall2 (fun hit r =>
                  mapHit reg name hit (dict_get "mapper" api_def (JDict []))
                  = Returns r) hits results.
Proof.
  intros Ht Hname H. apply handle_found in H as [_ [hits [Hex Hmap]]].
  pose proof (map_results_length reg api_def hits results Hmap) as Hlen.
  unfold map_results in Hmap. rewrite Ht in Hmap. cbn [negb] in Hmap.
  destruct (py_get _ "strategy" _) as [strategy|e]; [|discriminate].
  cbn [bind] in Hmap. destruct strategy; try discriminate.
  exists hits, s. split; [exact Hex|]. split; [reflexivity|].
  split; [now apply Hname|]. split; [exact Hlen|].
  now apply map_hits_forall2.
Qed.

Lemma search_results_pointwise_witness :
  truthy (dict_get "mapper" solr_api (JDict [])) = true
  /\ exists results hits name,
       handle_response CUSTOM_MAPPERS solr_api 200 solr_body = Found results
       /\ extract_hits solr_api solr_body = Returns hits
       /\ py_get (dict_get "mapper" solr_api (JDict [])) "strategy"
            (JStr "flat_object") = Returns (JStr name)
       /\ python_class_name name = false
       /\ List.length results = List.length hits
       /\ Forall2 (fun hit r =>
                     mapHit CUSTOM_MAPPERS name hit
                       (dict_get "mapper" solr_api (JDict [])) = Returns r)
            hits results.
Proof.
  split; [reflexivity|].
  eexists.
  assert (Hname : forall name,
             py_get (dict_get "mapper" solr_api (JDict [])) "strategy"
               (JStr "flat_object") = Returns (JStr name) ->
             python_class_name name = false).
  { intros name H. injection H as <-. reflexivity. }
  destruct (search_results_pointwise CUSTOM_MAPPERS solr_api 200 solr_body
              _ eq_refl Hname eq_refl) as [hits [name [H1 [H2 [H3 [H4 H5]]]]]].
  exists hits, name. repeat split; assumption.
Defined.

(** X18.  One hit that cannot be mapped fails the whole search: when the
    strategy, whose name is none of those Python gives every class, raises
    on any of the hits, [search_api] answers with the error envelope, which
    holds no result, also for the hits that could be mapped. *)
Theorem search_one_failure_fails_all (reg : registry) (api_def : dict)
  (data : json) (hits : list json) (name : string) (hit : json) (e : exn) :
  truthy (dict_get "mapper" api_def (JDict [])) = true ->
  py_get (dict_get "mapper" api_def (JDict [])) "strategy" (JStr "flat_object")
  = Returns (JStr name) ->
  python_class_name name = false ->
  extract_hits api_def data = Returns hits ->
  In hit hits ->
  mapHit reg name hit (dict_get "mapper" api_def (JDict [])) = Raises e ->
  exists e',
    handle_response reg api_def 200 data = Failed (Caught e')
    /\ results_of (handle_response reg api_def 200 data) = [].
Proof.
  intros Ht Hs _ Hex Hin Hr. unfold handle_response. cbn [Z.eqb Pos.eqb negb].
  rewrite Hex. cbn [bind]. unfold map_results. rewrite Ht, Hs. cbn [negb bind].
  destruct (map_hits_raises
              (fun h => mapHit reg name h (dict_get "mapper" api_def (JDict [])))
              hits hit e Hin Hr) as [e' He'].
  rewrite He'. exists e'. split; reflexivity.
Qed.

Lemma search_one_failure_fails_all_witness :
  truthy (dict_get "mapper" solr_api (JDict [])) = true
  /\ python_class_name "obo_ontology" = false
  /\ In (JStr "not a record")
        [JDict [("label", JStr "Mus musculus")]; JStr "not a record"]
  /\ handle_response CUSTOM_MAPPERS solr_api 200 mixed_body
     = Failed (Caught AttributeError).
Proof.
  split; [reflexivity|]. split; [reflexivity|]. split; [right; now left|].
  destruct (search_one_failure_fails_all CUSTOM_MAPPERS solr_api mixed_body
              [JDict [("label", JStr "Mus musculus")]; JStr "not a record"]
              "obo_ontology" (JStr "not a record") AttributeError
              eq_refl eq_refl eq_refl eq_refl
              (or_intror (or_introl eq_refl)) eq_refl)
    as [e' [H _]].
  reflexivity.
Defined.

(** X19.  A body without the array is no error: when the body is not an
    object and result_path names a key, or when the body is an object that
    lacks the first key of result_path, the search finds no hit, and with
    the default limit it answers with an empty list of hits. *)
Theorem search_missing_path_no_hits (api_def : dict) (data : json)
  (result_path : string) :
  dict_get "result_path" api_def (JStr "") = JStr result_path ->
  (is_dict data = false
   /\ existsb (fun key => negb (is_empty key)) (split "." result_path) = true)
  \/ (exists d, data = JDict d
        /\ is_empty (fst (span_not "." result_path)) = false
        /\ lookup (fst (span_not "." result_path)) d = None) ->
  extract_hits api_def data
  = slice_to (dict_get "result_limit" api_def (JInt 10)) []
  /\ (lookup "result_limit" api_def = None ->
      extract_hits api_def data = Returns []).
Proof.
  intros Hp Hcase.
  assert (Hd : descend (split "." result_path) data = JList []).
  { destruct Hcase as [[Hnd Hk] | [d [-> [Hne Hmiss]]]].
    - now apply descend_not_object.
    - unfold split.
      pose proof (split_go_first "." result_path) as Hfirst.
      destruct (split_go "." 0 result_path) as [k ks]. cbn [fst] in Hfirst.
      subst k. cbn [descend]. rewrite Hne. unfold dict_get. rewrite Hmiss.
      apply descend_empty_list. }
  assert (He : extract_hits api_def data
               = slice_to (dict_get "result_limit" api_def (JInt 10)) []).
  { unfold extract_hits. now rewrite Hp, Hd. }
  split; [exact He|].
  intros Hnone. rewrite He. unfold dict_get. now rewrite Hnone.
Qed.

Lemma search_missing_path_no_hits_witness :
  dict_get "result_path" [("result_path", JStr "response.docs")] (JStr "")
  = JStr "response.docs"
  /\ extract_hits [("result_path", JStr "response.docs")]
       (JDict [("error", JStr "upstream")]) = Returns []
  /\ extract_hits [("result_path", JStr "response.docs")] (JList [JInt 1])
     = Returns [].
Proof.
  split; [reflexivity|]. split.
  - apply (search_missing_path_no_hits [("result_path", JStr "response.docs")]
             (JDict [("error", JStr "upstream")]) "response.docs" eq_refl).
    + right. exists [("error", JStr "upstream")]. repeat split.
    + reflexivity.
  - apply (search_missing_path_no_hits [("result_path", JStr "response.docs")]
             (JList [JInt 1]) "response.docs" eq_refl).
    + left. split; reflexivity.
    + reflexivity.
Defined.
